(** * Bedrock Data Automation manager: a shallow embedding of
      [src/bda_manager.py] and the properties of its result pipeline.

    The embedding follows the Python source function by function.  Values
    that travel through the program are JSON-like Python objects, API
    responses are Python dicts (insertion-ordered association lists), tables
    are pandas frames (a list of column labels and a list of rows), and code
    that can raise returns in an error monad. *)

From Stdlib Require Import List String ZArith Bool Lia.
Import ListNotations.
Local Open Scope string_scope.
Local Open Scope list_scope.

Set Implicit Arguments.
Set Warnings "-register-all".

(** ** Python values *)

(** The values found in API responses and in table cells.  [NaN] is the
    missing-value marker of pandas; a JSON [null] is loaded as [None], which
    pandas treats as missing as well, so both are this constructor. *)
Inductive json : Type :=
| NaN
| JBool (b : bool)
| JNum (z : Z)
| JStr (s : string)
| JList (l : list json)
| JDict (d : list (string * json)).

(** A Python [dict] with string keys: insertion-ordered. *)
Definition record := list (string * json).

Module Dict.

(** [d.get(k)] *)
Fixpoint get (d : record) (k : string) : option json :=
  match d with
  | [] => None
  | (k', v) :: d' => if String.eqb k' k then Some v else get d' k
  end.

(** [k in d] *)
Definition mem (d : record) (k : string) : bool :=
  match get d k with Some _ => true | None => false end.

(** [d[k] = v]: an existing key keeps its place, a new key is appended. *)
Fixpoint set (d : record) (k : string) (v : json) : record :=
  match d with
  | [] => [(k, v)]
  | (k', v') :: d' =>
      if String.eqb k' k then (k', v) :: d' else (k', v') :: set d' k v
  end.

Definition keys (d : record) : list string := map fst d.

End Dict.

(** Exceptions, and code that may raise.  [Unsupported] marks a use of pandas
    outside the fragment modelled below: nothing is claimed there. *)
Inductive exn : Type :=
| KeyError (key : string)
| ValueError (msg : string)
| Unsupported (what : string).

Inductive result (A : Type) : Type :=
| Ok (a : A)
| Raise (e : exn).
Arguments Ok {A} a.
Arguments Raise {A} e.

Definition bind {A B : Type} (m : result A) (k : A -> result B) : result B :=
  match m with
  | Ok a => k a
  | Raise e => Raise e
  end.

Notation "x <- m ;; k" := (bind m (fun x => k))
  (at level 61, m at next level, right associativity).

(** Python truthiness ([if x:]) of a value. *)
Definition truthy (v : json) : bool :=
  match v with
  | NaN => false
  | JBool b => b
  | JNum z => negb (Z.eqb z 0)
  | JStr s => negb (String.eqb s "")
  | JList l => match l with [] => false | _ => true end
  | JDict d => match d with [] => false | _ => true end
  end.

(** [x == "literal"] for a value obtained with [.get]. *)
Definition eq_str (v : option json) (s : string) : bool :=
  match v with
  | Some (JStr s') => String.eqb s' s
  | _ => false
  end.

(** ** The status poller ([main], lines 258-276) *)

Module Poller.

(** What the program does to the outside while it waits. *)
Inductive event : Type :=
| GetStatus                (* manager.get_bda_inference_status(...) *)
| Sleep (seconds : Z).     (* time.sleep(seconds) *)

(** The [while] loop of lines 264-269, entered with the response of the
    last status query.  The status service is scripted: [script] holds the
    responses it gives to the queries still to come.  The result is the
    response the loop leaves with and what was done meanwhile; [None]
    when the script ends while the loop still asks. *)
Fixpoint poll_loop (response_bda_run_status : record) (script : list record)
  {struct script} : option (record * list event) :=
  if eq_str (Dict.get response_bda_run_status "status") "InProgress" then
    match script with
    | [] => None
    | next :: script' =>
        match poll_loop next script' with
        | Some (final, evs) => Some (final, Sleep 10 :: GetStatus :: evs)
        | None => None
        end
    end
  else Some (response_bda_run_status, []).

(** Lines 259-269: the initial status retrieval, then the loop. *)
Definition main_poll (script : list record) : option (record * list event) :=
  match script with
  | [] => None
  | first :: script' =>
      match poll_loop first script' with
      | Some (final, evs) => Some (final, GetStatus :: evs)
      | None => None
      end
  end.

(** Lines 276-277: where the results are, when the final response says so.
    The service gives a dict under ["outputConfiguration"]. *)
Definition output_s3_uri (response_bda_run_status : record) : option json :=
  match Dict.get response_bda_run_status "outputConfiguration" with
  | Some (JDict output_conf) =>
      if truthy (JDict output_conf) && Dict.mem output_conf "s3Uri"
      then Dict.get output_conf "s3Uri" else None
  | _ => None
  end.

(** The number of delays in a trace. *)
Definition delays (evs : list event) : list Z :=
  flat_map (fun e => match e with Sleep n => [n] | GetStatus => [] end) evs.

Definition queries (evs : list event) : nat :=
  List.length (filter (fun e => match e with GetStatus => true | _ => false end) evs).

(** The states of the specification's poller and the status strings the
    service reports for them. *)
Inductive job_status : Type := SUBMITTED | IN_PROGRESS | SUCCEEDED | FAILED.

Definition status_string (s : job_status) : string :=
  match s with
  | SUBMITTED => "Created"
  | IN_PROGRESS => "InProgress"
  | SUCCEEDED => "Success"
  | FAILED => "ServiceError"
  end.

(** A status response as the service sends it. *)
Definition response (s : job_status) (rest : record) : record :=
  ("status", JStr (status_string s)) :: rest.

End Poller.

(** ** Project provisioning ([_get_advertisement_arn], [_project_exists],
       [create_bda_project]) *)

Module Provisioning.

(** One page of [list_data_automation_projects]: the key ["projects"] may
    be missing, [page.get("projects", [])] is then the empty list. *)
Record page : Type := Page { projects : option (list record) }.

(** What [_project_exists] returns: [False] or the project's summary. *)
Inductive pyvalue : Type :=
| PyBool (b : bool)
| PyDict (d : record).

Definition py_truthy (v : pyvalue) : bool :=
  match v with
  | PyBool b => b
  | PyDict d => truthy (JDict d)
  end.

(** Lines 32-36. *)
Definition _get_advertisement_arn (blueprints : list record) : option json :=
  let matched :=
    filter (fun bp => eq_str (Dict.get bp "blueprintName") "Advertisement")
           blueprints in
  match matched with
  | bp :: _ => Dict.get bp "blueprintArn"
  | [] => None
  end.

(** The inner loop of lines 46-48: [Some project] is [return project]. *)
Fixpoint scan_projects (l : list record) (project_name : string)
  : option record :=
  match l with
  | [] => None
  | project :: l' =>
      if eq_str (Dict.get project "projectName") project_name
      then Some project
      else scan_projects l' project_name
  end.

(** Lines 44-49, over the pages the paginator yields. *)
Fixpoint _project_exists (pages : list page) (project_name : string)
  : pyvalue :=
  match pages with
  | [] => PyBool false
  | pg :: pages' =>
      match scan_projects (match projects pg with Some l => l | None => [] end)
                          project_name with
      | Some project => PyDict project
      | None => _project_exists pages' project_name
      end
  end.

(** The arguments of [create_data_automation_project] that vary; the
    standard output configuration of lines 71-123 is a constant. *)
Record create_request : Type := CreateRequest {
  projectName : string;
  projectDescription : string;
  projectStage : string;
  blueprintArn : json;
  blueprintStage : string
}.

(** The calls made to the service. *)
Inductive api_call : Type :=
| ListProjects
| CreateProject (req : create_request).

(** The service behind [self.bda_client], with state of type [S], in the
    case where it answers: what the two calls return.  A call that raises
    instead ([ClientError], a transport error) is the subject of
    [Failures] below. *)
Record bda_client (S : Type) : Type := Client {
  list_data_automation_projects : S -> list page;
  create_data_automation_project : S -> create_request -> S * record
}.

(** The manager's own state, set once in [__init__]. *)
Record manager : Type := Manager { advertisement_arn : option json }.

Definition opt_truthy (v : option json) : bool :=
  match v with Some x => truthy x | None => false end.

(** Lines 59-133: the new service state, the calls made and the outcome. *)
Definition create_bda_project {S : Type} (client : bda_client S)
    (self : manager)
    (project_name project_description project_stage : string) (s : S)
  : S * list api_call * result pyvalue :=
  let __project_exist :=
    _project_exists (list_data_automation_projects client s) project_name in
  if py_truthy __project_exist then
    (s, [ListProjects], Ok __project_exist)
  else if negb (opt_truthy (advertisement_arn self)) then
    (s, [ListProjects],
     Raise (ValueError "Advertisement blueprint ARN not found."))
  else
    let req := CreateRequest project_name project_description project_stage
                 (match advertisement_arn self with
                  | Some a => a | None => NaN end)
                 "LIVE" in
    let '(s', response_bda_creation) :=
      create_data_automation_project client s req in
    (s', [ListProjects; CreateProject req], Ok (PyDict response_bda_creation)).

Definition creates (calls : list api_call) : nat :=
  List.length (filter (fun c => match c with CreateProject _ => true
                                        | ListProjects => false end) calls).


End Provisioning.

(** ** The fragment of pandas the program uses

    A frame is its column labels and its rows; a row gives a value to the
    labels it holds and [NaN] to every other one.  Every frame of the
    program carries the default index 0, 1, 2, ... (JSON loads,
    [reset_index(drop=True)], [ignore_index=True]), so a row's index label is
    its position.  Labels are pairwise distinct, as in every frame loaded
    from JSON; where the program could produce a frame with a repeated label
    the model answers [Unsupported].  The behaviour modelled is that of
    pandas 2.  Cells are kept as the Python objects they are: the dtypes of
    columns are not followed, so the conversion of an integer column to
    float64, where a missing value has to be stored beside the integers,
    is outside the fragment. *)

Module Pandas.

Record DataFrame : Type := Frame {
  columns : list string;
  rows : list record
}.

Definition Series := list json.

(** [pd.DataFrame()] *)
Definition empty : DataFrame := Frame [] [].

Definition cell (r : record) (c : string) : json :=
  match Dict.get r c with Some v => v | None => NaN end.

Definition has_column (df : DataFrame) (c : string) : bool :=
  existsb (String.eqb c) (columns df).

(** [df[c]] *)
Definition getitem (df : DataFrame) (c : string) : result Series :=
  if has_column df c then Ok (map (fun r => cell r c) (rows df))
  else Raise (KeyError c).

(** [s[0]] on the default index *)
Definition loc0 (s : Series) : result json :=
  match s with
  | v :: _ => Ok v
  | [] => Raise (KeyError "0")
  end.

Definition add_column (cols : list string) (c : string) : list string :=
  if existsb (String.eqb c) cols then cols else cols ++ [c].

Fixpoint assign (rs : list record) (c : string) (s : Series) : list record :=
  match rs with
  | [] => []
  | r :: rs' =>
      Dict.set r c (match s with v :: _ => v | [] => NaN end)
        :: assign rs' c (match s with _ :: s' => s' | [] => [] end)
  end.

(** [df[c] = s] for a series on the same index *)
Definition setitem (df : DataFrame) (c : string) (s : Series) : DataFrame :=
  Frame (add_column (columns df) c) (assign (rows df) c s).

(** [df[c] = v] for a scalar *)
Definition setitem_scalar (df : DataFrame) (c : string) (v : json)
  : DataFrame :=
  Frame (add_column (columns df) c) (map (fun r => Dict.set r c v) (rows df)).

(** The union of labels, in order of first appearance. *)
Definition union_columns (a b : list string) : list string :=
  fold_left add_column b a.

(** [pd.concat(dfs)] along the rows, with or without [ignore_index]. *)
Definition concat (dfs : list DataFrame) : DataFrame :=
  Frame (fold_left (fun acc df => union_columns acc (columns df)) dfs [])
        (flat_map rows dfs).

Definition disjoint (a b : list string) : bool :=
  forallb (fun c => negb (existsb (String.eqb c) a)) b.

(** Rows of two frames put side by side; the shorter side is padded. *)
Fixpoint zip_rows (ra rb : list record) : list record :=
  match ra, rb with
  | [], _ => rb
  | _, [] => ra
  | r :: ra', r' :: rb' => (r ++ r') :: zip_rows ra' rb'
  end.

(** [pd.concat([a, b], axis=1)] *)
Definition concat_axis1 (a b : DataFrame) : result DataFrame :=
  if disjoint (columns a) (columns b)
  then Ok (Frame (columns a ++ columns b) (zip_rows (rows a) (rows b)))
  else Raise (Unsupported "concat(axis=1) with a repeated label").

(** [DataFrame(list of dicts)] *)
Definition from_records (l : list record) : DataFrame :=
  Frame (fold_left (fun acc r => union_columns acc (Dict.keys r)) l []) l.

Definition is_dict (v : json) : bool :=
  match v with JDict _ => true | _ => false end.

Definition is_list (v : json) : bool :=
  match v with JList _ => true | _ => false end.

(** [new_key] of [_normalise_json]: the separator is ["."]. *)
Definition new_key (key_string key : string) : string :=
  if String.eqb key_string "" then key else key_string ++ "." ++ key.

(** [_normalise_json(data, key_string, normalized_dict, separator=".")] *)
Fixpoint _normalise_json (data : json) (key_string : string)
    (normalized_dict : record) : record :=
  match data with
  | JDict d =>
      (fix items (d : list (string * json)) (acc : record) : record :=
         match d with
         | [] => acc
         | (key, value) :: d' =>
             items d' (_normalise_json value (new_key key_string key) acc)
         end) d normalized_dict
  | _ => Dict.set normalized_dict key_string data
  end.

(** [{**a, **b}] *)
Definition merge (a b : record) : record :=
  fold_left (fun acc kv => Dict.set acc (fst kv) (snd kv)) b a.

(** [_normalise_json_ordered(data, separator=".")] *)
Definition _normalise_json_ordered (data : record) : record :=
  let top_dict_ := filter (fun kv => negb (is_dict (snd kv))) data in
  let nested_dict_ :=
    _normalise_json (JDict (filter (fun kv => is_dict (snd kv)) data)) "" [] in
  merge top_dict_ nested_dict_.

(** [_simple_json_normalize] on one element of the series: a dict is
    flattened, anything that is neither a dict nor a list gives [{}]. *)
Definition _simple_json_normalize (ds : json) : record :=
  match ds with
  | JDict d => _normalise_json_ordered d
  | _ => []
  end.

(** [pd.json_normalize(s)] for a series [s]: the frame of the flattened
    elements.  A series with a list among its elements is outside the
    fragment. *)
Definition json_normalize (s : Series) : result DataFrame :=
  if existsb is_list s
  then Raise (Unsupported "json_normalize of a list")
  else Ok (from_records (map _simple_json_normalize s)).

(** What one cell becomes under [explode]: a non-empty list-like gives its
    elements (a dict, its keys), an empty one gives one [NaN], a scalar
    stays. *)
Definition explode_cell (v : json) : list json :=
  match v with
  | JList [] => [NaN]
  | JList l => l
  | JDict [] => [NaN]
  | JDict d => map JStr (Dict.keys d)
  | _ => [v]
  end.

Fixpoint unique (l : list string) : bool :=
  match l with
  | [] => true
  | c :: l' => negb (existsb (String.eqb c) l') && unique l'
  end.

(** [df.explode(c).reset_index(drop=True)] *)
Definition explode (df : DataFrame) (c : string) : result DataFrame :=
  if negb (unique (columns df))
  then Raise (ValueError "DataFrame columns must be unique.")
  else if negb (has_column df c) then Raise (KeyError c)
  else Ok (Frame (columns df)
             (flat_map (fun r => map (Dict.set r c) (explode_cell (cell r c)))
                       (rows df))).

(** [s.dropna().items()]: index label and value of the entries present. *)
Fixpoint items_from (i : nat) (s : Series) : list (nat * json) :=
  match s with
  | [] => []
  | v :: s' =>
      match v with
      | NaN => items_from (S i) s'
      | _ => (i, v) :: items_from (S i) s'
      end
  end.

Definition dropna_items (s : Series) : list (nat * json) := items_from 0 s.

End Pandas.

(** ** Loading and reconciling the results
       ([read_custom_out_path_and_load], [retrieve_inference_results] and
       lines 281-313 of [main]) *)

Module Manager.
Import Pandas.

(** Blob storage as the loader sees it: [wr.s3.read_json(path=..., 
    orient='records', lines=True)] gives a frame, or raises ([None]). *)
Definition storage := string -> option DataFrame.

Definition read_json (s3 : storage) (path : json) : option DataFrame :=
  match path with
  | JStr uri => s3 uri
  | _ => None
  end.

(** The body of the [for] loop of lines 181-189 on the entries left;
    [dfs] is returned in the order of the appends. *)
Fixpoint load_each (s3 : storage) (entries : list (nat * json))
  : list DataFrame :=
  match entries with
  | [] => []
  | (idx, s3_uri) :: entries' =>
      match read_json s3 s3_uri with
      | Some df_temp =>
          let df_temp :=
            setitem_scalar df_temp "source_index" (JNum (Z.of_nat idx)) in
          let df_temp := setitem_scalar df_temp "source_file" s3_uri in
          df_temp :: load_each s3 entries'
      | None => load_each s3 entries'      (* except Exception: print *)
      end
  end.

(** Lines 179-194. *)
Definition read_custom_out_path_and_load (s3 : storage)
    (final_df : DataFrame) (path_column : string) : result DataFrame :=
  col <- getitem final_df path_column ;;
  let dfs := load_each s3 (dropna_items col) in
  match dfs with
  | [] => Ok empty
  | _ => Ok (concat dfs)
  end.

(** Lines 205-212, on the frame read at line 203. *)
Definition retrieve_inference_results (df_invocation_metadata : DataFrame)
  : result DataFrame :=
  output_metadata <- getitem df_invocation_metadata "output_metadata" ;;
  normalized <- json_normalize output_metadata ;;
  df_invocation_metadata <- concat_axis1 df_invocation_metadata normalized ;;
  df_exploded_output <- explode df_invocation_metadata "segment_metadata" ;;
  segment_metadata <- getitem df_exploded_output "segment_metadata" ;;
  normalized <- json_normalize segment_metadata ;;
  concat_axis1 df_exploded_output normalized.

Definition is_str (v : json) (s : string) : bool := eq_str (Some v) s.

(** Lines 295-306: the branch on [modality_extracted]. *)
Definition extract_modality (modality_extracted : json)
    (standard_extracted_details : DataFrame) : result DataFrame :=
  if is_str modality_extracted "IMAGE" then
    image <- getitem standard_extracted_details "image" ;;
    __normalized_image_details <- json_normalize image ;;
    summary <- getitem __normalized_image_details "summary" ;;
    let standard_extracted_details :=
      setitem standard_extracted_details "summary" summary in
    text_words <- getitem __normalized_image_details "text_words" ;;
    let standard_extracted_details :=
      setitem standard_extracted_details "extracted_text_words" text_words in
    text_lines <- getitem __normalized_image_details "text_lines" ;;
    Ok (setitem standard_extracted_details "extracted_text_lines" text_lines)
  else if is_str modality_extracted "VIDEO" then
    video <- getitem standard_extracted_details "video" ;;
    __normalized_image_details <- json_normalize video ;;
    summary <- getitem __normalized_image_details "summary" ;;
    let standard_extracted_details :=
      setitem standard_extracted_details "summary" summary in
    transcript <-
      getitem __normalized_image_details "transcript.representation.text" ;;
    Ok (setitem standard_extracted_details "extracted_transcript" transcript)
  else Ok standard_extracted_details.

(** Lines 283-290. *)
Definition load_custom (s3 : storage) (exploded_job_metadata : DataFrame)
  : result DataFrame :=
  if has_column exploded_job_metadata "custom_output_path" then
    custom_extracted_details <-
      read_custom_out_path_and_load s3 exploded_job_metadata
        "custom_output_path" ;;
    matched_blueprint <- getitem custom_extracted_details "matched_blueprint" ;;
    normalized <- json_normalize matched_blueprint ;;
    name <- getitem normalized "name" ;;
    Ok (setitem custom_extracted_details "blueprintName" name)
  else Ok empty.

(** The tables [main] builds from the expanded manifest. *)
Record tables : Type := Tables {
  custom_extracted_details : DataFrame;
  standard_extracted_details : DataFrame;
  final_result_bda_pd : DataFrame
}.

(** Lines 281-313. *)
Definition main_reconcile (s3 : storage) (exploded_job_metadata : DataFrame)
  : result tables :=
  semantic_modality <- getitem exploded_job_metadata "semantic_modality" ;;
  modality_extracted <- loc0 semantic_modality ;;
  custom <- load_custom s3 exploded_job_metadata ;;
  standard <-
    read_custom_out_path_and_load s3 exploded_job_metadata
      "standard_output_path" ;;
  standard <- extract_modality modality_extracted standard ;;
  Ok (Tables custom standard (concat [custom; standard])).

(** *** The reconciler as the specification words it *)

(** The modality-specific extraction of one STANDARD record, chosen by a
    modality tag: IMAGE takes the summary, the words and the lines of the
    nested image structure, VIDEO the summary and the transcript text of
    the nested video structure, any other tag leaves the record as it
    is. *)
Definition enrich_record (tag : json) (r : record) : record :=
  if is_str tag "IMAGE" then
    let n := _simple_json_normalize (cell r "image") in
    Dict.set
      (Dict.set (Dict.set r "summary" (cell n "summary"))
                "extracted_text_words" (cell n "text_words"))
      "extracted_text_lines" (cell n "text_lines")
  else if is_str tag "VIDEO" then
    let n := _simple_json_normalize (cell r "video") in
    Dict.set (Dict.set r "summary" (cell n "summary"))
             "extracted_transcript" (cell n "transcript.representation.text")
  else r.

(** The modality tag of the manifest row a detail record was loaded for. *)
Definition own_tag (exploded_job_metadata : DataFrame) (r : record) : json :=
  match cell r "source_index" with
  | JNum i =>
      match nth_error (rows exploded_job_metadata) (Z.to_nat i) with
      | Some m => cell m "semantic_modality"
      | None => NaN
      end
  | _ => NaN
  end.

End Manager.

(** ** Definitions used to state the properties *)

Module Props.
Import Pandas Manager.

(** The loop condition of line 264. *)
Definition in_progress (r : record) : bool :=
  eq_str (Dict.get r "status") "InProgress".

(** [n] rounds of the loop body: a delay of 10 seconds, then a query. *)
Fixpoint rounds (n : nat) : list Poller.event :=
  match n with
  | O => []
  | S n' => Poller.Sleep 10 :: Poller.GetStatus :: rounds n'
  end.


(** A project of that name is in the listing, on some page. *)
Definition listed (pages : list Provisioning.page) (project_name : string)
    (p : record) : Prop :=
  exists pg l,
    In pg pages /\ Provisioning.projects pg = Some l /\ In p l /\
    Dict.get p "projectName" = Some (JStr project_name).

(** A service that keeps its projects in pages and names the ARN after the
    project. *)
Definition paged_service : Provisioning.bda_client (list Provisioning.page) :=
  Provisioning.Client
    (fun s => s)
    (fun s req =>
       let arn := JStr ("arn:aws:bedrock:project/" ++ Provisioning.projectName req) in
       (s ++ [Provisioning.Page
                (Some [[("projectArn", arn);
                        ("projectName", JStr (Provisioning.projectName req));
                        ("projectStage", JStr (Provisioning.projectStage req))]])],
        [("projectArn", arn);
         ("projectStage", JStr (Provisioning.projectStage req));
         ("status", JStr "COMPLETED")])).

(** The non-null entries of a path column, with their index labels. *)
Definition path_entries (df : DataFrame) (c : string) : list (nat * json) :=
  dropna_items (map (fun r => cell r c) (rows df)).

(** The rows one entry of the path column contributes to the loaded table:
    the records of its document, tagged with where they come from, when
    the fetch succeeds. *)
Definition loaded_rows (s3 : storage) (e : nat * json) : list record :=
  match read_json s3 (snd e) with
  | Some df_temp =>
      map (fun r => Dict.set (Dict.set r "source_index" (JNum (Z.of_nat (fst e))))
                             "source_file" (snd e))
          (rows df_temp)
  | None => []
  end.


(** Where a row of a loaded table comes from. *)
Definition source (r : record) : json * json :=
  (cell r "source_index", cell r "source_file").

(** A manifest row after the first flattening step of the loader. *)
Definition flattened (r : record) : record :=
  r ++ _simple_json_normalize (cell r "output_metadata").

(** The rows one manifest row expands to. *)
Definition expand_row (r : record) : list record :=
  map (fun seg => Dict.set (flattened r) "segment_metadata" seg
                    ++ _simple_json_normalize seg)
      (explode_cell (cell (flattened r) "segment_metadata")).

End Props.


(** ** The two kinds of output *)

Module Kinds.
Import Pandas Manager.





End Kinds.

(** ** Provisioning against a service that can fail *)

Module Failures.
Import Provisioning.

(** What [create_bda_project] can raise: its own [ValueError], and the
    [ClientError] of a service call, which it does not catch. *)
Inductive raised : Type :=
| ValueErr (msg : string)
| ClientError (code : string).

Inductive outcome : Type :=
| Returns (v : pyvalue)
| Raises (e : raised).

(** The service with its failures.  The paginator is lazy: it yields the
    pages of the calls that succeed and then, if a call fails, raises.
    A create call returns a response or raises; either way the service may
    have changed. *)
Record fallible_client (S : Type) : Type := FallibleClient {
  paginate : S -> list page * option string;
  create_project : S -> create_request -> S * (record + string)
}.

(** Lines 44-49 with the paginator's failure: a project found on the pages
    yielded is returned before the failing call is made. *)
Definition project_exists_call {S : Type} (client : fallible_client S)
    (s : S) (project_name : string) : outcome :=
  let '(pages, err) := paginate client s in
  match _project_exists pages project_name with
  | PyDict project => Returns (PyDict project)
  | PyBool b =>
      match err with
      | Some code => Raises (ClientError code)
      | None => Returns (PyBool b)
      end
  end.

(** Lines 59-133 against the service that can fail. *)
Definition create_bda_project {S : Type} (client : fallible_client S)
    (self : manager)
    (project_name project_description project_stage : string) (s : S)
  : S * list api_call * outcome :=
  match project_exists_call client s project_name with
  | Raises e => (s, [ListProjects], Raises e)
  | Returns __project_exist =>
      if py_truthy __project_exist then
        (s, [ListProjects], Returns __project_exist)
      else if negb (opt_truthy (advertisement_arn self)) then
        (s, [ListProjects],
         Raises (ValueErr "Advertisement blueprint ARN not found."))
      else
        let req := CreateRequest project_name project_description project_stage
                     (match advertisement_arn self with
                      | Some a => a | None => NaN end)
                     "LIVE" in
        let '(s', answer) := create_project client s req in
        (s', [ListProjects; CreateProject req],
         match answer with
         | inl response_bda_creation => Returns (PyDict response_bda_creation)
         | inr code => Raises (ClientError code)
         end)
  end.

(** A service that always answers, as a service that can fail. *)
Definition answering {S : Type} (client : bda_client S) : fallible_client S :=
  FallibleClient
    (fun s => (list_data_automation_projects client s, None))
    (fun s req =>
       (fst (create_data_automation_project client s req),
        inl (snd (create_data_automation_project client s req)))).

(** A service whose listing is throttled after an empty first page. *)
Definition throttled : fallible_client unit :=
  FallibleClient
    (fun _ => ([Page (Some [])], Some "ThrottlingException"))
    (fun s _ => (s, inr "ThrottlingException")).

End Failures.

(** ** Setting up the manager ([__init__], [_list_blueprints]) *)

Module Setup.
Import Provisioning.

(** Lines 25-26: the blueprints of the response, [KeyError] without the
    key; the service gives a list of dicts under it. *)
Definition _list_blueprints (response : list (string * list record))
  : result (list record) :=
  match find (fun kv => String.eqb (fst kv) "blueprints") response with
  | Some kv => Ok (snd kv)
  | None => Raise (KeyError "blueprints")
  end.

(** Lines 18-19. *)
Definition init (response : list (string * list record)) : result manager :=
  blueprints <- _list_blueprints response ;;
  Ok (Manager (_get_advertisement_arn blueprints)).

End Setup.

(** ** The invocation id ([main], line 274) *)

Module Invocation.

(** [s.split(sep)] for a separator of one character: the pieces between
    the separators, an empty piece where two separators meet or where the
    string starts or ends with one. *)
Fixpoint split (sep : Ascii.ascii) (s : string) : list string :=
  match s with
  | EmptyString => [EmptyString]
  | String c s' =>
      if Ascii.eqb c sep then EmptyString :: split sep s'
      else match split sep s' with
           | w :: ws => String c w :: ws
           | [] => [String c EmptyString]
           end
  end.

(** [sep.join(l)] *)
Fixpoint join (sep : Ascii.ascii) (l : list string) : string :=
  match l with
  | [] => EmptyString
  | [w] => w
  | w :: ws => w ++ String sep (join sep ws)
  end.

(** How line 274 ends. *)
Inductive outcome : Type :=
| Id (invocation_id : string)
| MissingKey            (* KeyError: no 'invocationArn' in the response *)
| NotAString            (* AttributeError: the value has no split *)
| IndexError.           (* the ARN has no "/" *)

Definition slash : Ascii.ascii := Ascii.ascii_of_nat 47.

(** [response_bda_run['invocationArn'].split("/")[1]] *)
Definition invocation_id (response_bda_run : record) : outcome :=
  match Dict.get response_bda_run "invocationArn" with
  | None => MissingKey
  | Some (JStr arn) =>
      match nth_error (split slash arn) 1 with
      | Some piece => Id piece
      | None => IndexError
      end
  | Some _ => NotAString
  end.

(** The character does not occur in the string. *)
Fixpoint free_of (sep : Ascii.ascii) (s : string) : bool :=
  match s with
  | EmptyString => true
  | String c s' => negb (Ascii.eqb c sep) && free_of sep s'
  end.

End Invocation.

(** ** Shapes of frames and records *)

Module Shape.
Import Pandas.

(** Every key a row holds is a column of its frame. *)
Definition well_formed (df : DataFrame) : Prop :=
  forall r, In r (rows df) ->
  forall k, Dict.mem r k = true -> has_column df k = true.

(** No value of the record is a dict. *)
Definition flat (r : record) : Prop :=
  Forall (fun kv => is_dict (snd kv) = false) r.

(** The columns the modality branch writes. *)
Definition written (c : string) : Prop :=
  c = "summary" \/ c = "extracted_text_words" \/ c = "extracted_text_lines"
  \/ c = "extracted_transcript".

(** The rows [explode] makes of one cell. *)
Definition pieces (v : json) : nat := List.length (explode_cell v).

End Shape.

(** ** Sample manifests and documents *)

Module Samples.
Import Pandas Manager.

(** Blob storage holding the given documents, each of one JSON line. *)
Fixpoint bucket (objects : list (string * record)) : storage :=
  fun uri =>
    match objects with
    | [] => None
    | (k, doc) :: objects' =>
        if String.eqb k uri then Some (from_records [doc])
        else bucket objects' uri
    end.

(** A standard-output document of an image. *)
Definition image_document (summary : string) (text_words text_lines : list json)
  : record :=
  [("image", JDict [("summary", JStr summary);
                    ("text_words", JList text_words);
                    ("text_lines", JList text_lines)])].

(** A standard-output document of a video. *)
Definition video_document (summary text : string) : record :=
  [("video",
    JDict [("summary", JStr summary);
           ("transcript",
            JDict [("representation", JDict [("text", JStr text)])])])].

(** A standard-output document of a text document. *)
Definition text_document (pages : Z) : record :=
  [("document", JDict [("statistics", JDict [("page_count", JNum pages)])])].

(** A custom-output document. *)
Definition custom_document (blueprint : string) : record :=
  [("matched_blueprint", JDict [("arn", JStr "arn:aws:bedrock:blueprint/ad");
                                ("name", JStr blueprint)]);
   ("inference_result", JDict [("product", JStr "burger")])].

(** A row of the expanded manifest. *)
Definition segment (modality : string) (custom_output_path : json)
    (standard_output_path : string) : record :=
  [("semantic_modality", JStr modality);
   ("custom_output_path", custom_output_path);
   ("standard_output_path", JStr standard_output_path)].

Definition manifest (segments : list record) : DataFrame :=
  Frame ["semantic_modality"; "custom_output_path"; "standard_output_path"]
        segments.

(** A manifest none of whose segments matched a custom schema: the
    custom path column is not there.  A segment is given by its modality
    tag and its standard output location. *)
Definition standard_only (segments : list (string * string)) : DataFrame :=
  Frame ["semantic_modality"; "standard_output_path"]
        (map (fun s => [("semantic_modality", JStr (fst s));
                        ("standard_output_path", JStr (snd s))]) segments).

(** The table of a run that went through, the empty one otherwise. *)
Definition tables_of (r : result tables) : tables :=
  match r with
  | Ok t => t
  | Raise _ => Tables empty empty empty
  end.

Definition frame_of (r : result DataFrame) : DataFrame :=
  match r with
  | Ok t => t
  | Raise _ => empty
  end.

(** Two segments of different modality, both documents in place. *)
Definition mixed_manifest : DataFrame :=
  standard_only [("DOCUMENT", "s3://out/0/standard_output.json");
                 ("VIDEO", "s3://out/1/standard_output.json")].

Definition mixed_bucket : storage :=
  bucket [("s3://out/0/standard_output.json", text_document 2);
          ("s3://out/1/standard_output.json", video_document "a talk" "hello")].

(** Two image segments; the document of the second cannot be fetched. *)
Definition two_images : DataFrame :=
  standard_only [("IMAGE", "s3://out/0/standard_output.json");
                 ("IMAGE", "s3://out/1/standard_output.json")].

Definition second_missing : storage :=
  bucket [("s3://out/0/standard_output.json",
           image_document "x" [JStr "a"; JStr "b"] [JStr "ab"])].

Definition both_present : storage :=
  bucket [("s3://out/0/standard_output.json",
           image_document "x" [JStr "a"; JStr "b"] [JStr "ab"]);
          ("s3://out/1/standard_output.json",
           image_document "y" [JStr "c"] [JStr "c"])].

(** Segment A with a custom and a standard output, segment B with a
    standard output only. *)
Definition a_and_b : DataFrame :=
  manifest [segment "IMAGE" (JStr "s3://out/0/custom_output.json")
                    "s3://out/0/standard_output.json";
            segment "IMAGE" NaN "s3://out/1/standard_output.json"].

Definition a_and_b_bucket : storage :=
  bucket [("s3://out/0/custom_output.json", custom_document "Advertisement");
          ("s3://out/0/standard_output.json",
           image_document "x" [JStr "a"; JStr "b"] [JStr "ab"]);
          ("s3://out/1/standard_output.json",
           image_document "y" [JStr "c"] [JStr "c"])].

(** A manifest as read at line 203: one row per asset, the segments
    nested in its output metadata. *)
Definition asset (asset_id : Z) (segments : list json) : record :=
  [("job_id", JStr "job-1"); ("semantic_modality", JStr "IMAGE");
   ("output_metadata",
    JDict [("asset_id", JNum asset_id);
           ("segment_metadata", JList segments)])].

Definition job_metadata (assets : list record) : DataFrame :=
  Frame ["job_id"; "semantic_modality"; "output_metadata"] assets.

Definition segment_entry (standard_output_path : string) : json :=
  JDict [("custom_output_status", JStr "NO_MATCH");
         ("standard_output_path", JStr standard_output_path)].

(** Two assets, of three segments and of one. *)
Definition three_and_one : DataFrame :=
  job_metadata [asset 0 [segment_entry "s3://out/0/0/standard_output.json";
                         segment_entry "s3://out/0/1/standard_output.json";
                         segment_entry "s3://out/0/2/standard_output.json"];
                asset 1 [segment_entry "s3://out/1/0/standard_output.json"]].

(** Two assets, of three segments and of none. *)
Definition three_and_none : DataFrame :=
  job_metadata [asset 0 [segment_entry "s3://out/0/0/standard_output.json";
                         segment_entry "s3://out/0/1/standard_output.json";
                         segment_entry "s3://out/0/2/standard_output.json"];
                asset 1 []].

End Samples.

(** * Properties *)

Import Props.
Unset Implicit Arguments.

(** ** Dictionaries *)

Lemma eq_str_true (v : option json) (s : string) :
  eq_str v s = true <-> v = Some (JStr s).
Proof.
  unfold eq_str. destruct v as [[| | |s'| |]|]; split; try discriminate.
  - intros H. apply String.eqb_eq in H. now subst.
  - intros H. injection H as ->. apply String.eqb_refl.
Qed.

Lemma get_set_same (d : record) (k : string) (v : json) :
  Dict.get (Dict.set d k v) k = Some v.
Proof.
  induction d as [|[k' v'] d IH]; simpl.
  - now rewrite String.eqb_refl.
  - destruct (String.eqb k' k) eqn:E; simpl; rewrite E; auto.
Qed.

Lemma get_set_other (d : record) (k k' : string) (v : json) :
  k <> k' -> Dict.get (Dict.set d k v) k' = Dict.get d k'.
Proof.
  intros Hne. induction d as [|[k0 v0] d IH]; simpl.
  - destruct (String.eqb k k') eqn:E; auto.
    apply String.eqb_eq in E. contradiction.
  - destruct (String.eqb k0 k) eqn:E; simpl.
    + apply String.eqb_eq in E. subst k0.
      destruct (String.eqb k k') eqn:E'; auto.
      apply String.eqb_eq in E'. contradiction.
    + now rewrite IH.
Qed.

(** ** The poller *)

Section PollerFacts.
Import Poller.

Lemma poll_loop_leaves (r : record) (script : list record) :
  in_progress r = false -> poll_loop r script = Some (r, []).
Proof.
  unfold in_progress. intros H. destruct script; simpl; now rewrite H.
Qed.

Lemma poll_loop_rounds (pre : list record) :
  forall (first p : record) (post : list record),
    Forall (fun r => in_progress r = true) (first :: pre) ->
    in_progress p = false ->
    poll_loop first (pre ++ p :: post)
    = Some (p, rounds (S (List.length pre))).
Proof.
  induction pre as [|q pre IH]; intros first p post Hall Hp.
  - inversion Hall as [|? ? Hf _]; subst. unfold in_progress in Hf.
    simpl. rewrite Hf. now rewrite (@poll_loop_leaves p post Hp).
  - inversion Hall as [|? ? Hf Hrest]; subst. unfold in_progress in Hf.
    cbn [app poll_loop]. rewrite Hf.
    now rewrite (IH q p post Hrest Hp).
Qed.

(** While every response says [InProgress] the loop goes on: a script of
    such responses is used up without a result. *)
Lemma poller_keeps_waiting (script : list record) :
  Forall (fun r => in_progress r = true) script -> main_poll script = None.
Proof.
  intros Hall. destruct script as [|first script]; [reflexivity|].
  simpl. enough (H : poll_loop first script = None) by now rewrite H.
  revert first Hall. induction script as [|q script IH]; intros first Hall;
    inversion Hall as [|? ? Hf Hrest]; subst; unfold in_progress in Hf;
    simpl; rewrite Hf; [reflexivity|].
  now rewrite (IH q Hrest).
Qed.

(** C3, as amended: only the status [InProgress] keeps the loop going.
    For every script of responses, polling stops at the first response
    whose status is anything else, after one 10-second delay and one new
    query for each [InProgress] response seen before it. *)
Theorem poller_stops_at_first_other_status
    (pre : list record) (p : record) (post : list record) :
  Forall (fun r => in_progress r = true) pre ->
  in_progress p = false ->
  main_poll (pre ++ p :: post)
  = Some (p, GetStatus :: rounds (List.length pre)).
Proof.
  intros Hall Hp. destruct pre as [|first pre]; simpl.
  - now rewrite (@poll_loop_leaves p post Hp).
  - now rewrite (@poll_loop_rounds pre first p post Hall Hp).
Qed.

Lemma poller_stops_at_first_other_status_witness :
  main_poll ([response IN_PROGRESS []] ++ response FAILED [] :: [response SUCCEEDED []])
  = Some (response FAILED [], GetStatus :: rounds 1).
Proof.
  apply (@poller_stops_at_first_other_status
           [response IN_PROGRESS []] (response FAILED [])
           [response SUCCEEDED []]).
  - repeat constructor.
  - reflexivity.
Defined.

(** C3 as stated fails: a response with the still-running status SUBMITTED
    ends the polling at once, with no delay and no further query, although
    the job goes on to succeed. *)
Lemma poller_stops_on_submitted :
  main_poll [response SUBMITTED []; response IN_PROGRESS [];
             response SUCCEEDED []]
  = Some (response SUBMITTED [], [GetStatus]).
Proof. reflexivity. Qed.

(** C4: on the scripted statuses IN_PROGRESS, IN_PROGRESS, SUCCEEDED the
    poller makes exactly two re-polls, each after the 10-second delay, and
    returns the SUCCEEDED response itself, from which the output manifest
    location is read. *)
Theorem poller_two_repolls_then_succeeded
    (rest1 rest2 rest3 : record) (loc : string) :
  let succeeded :=
    response SUCCEEDED
      (("outputConfiguration", JDict [("s3Uri", JStr loc)]) :: rest3) in
  let script :=
    [response IN_PROGRESS rest1; response IN_PROGRESS rest2; succeeded] in
  main_poll script
  = Some (succeeded, [GetStatus; Sleep 10; GetStatus; Sleep 10; GetStatus])
  /\ (forall final evs, main_poll script = Some (final, evs) ->
        final = succeeded /\ delays evs = [10%Z; 10%Z] /\ queries evs = 3)
  /\ output_s3_uri succeeded = Some (JStr loc).
Proof.
  cbv zeta. split; [reflexivity|]. split; [|reflexivity].
  intros final evs H. cbn in H. injection H as <- <-. repeat split.
Qed.

End PollerFacts.

(** ** Provisioning *)

Section ProvisioningFacts.
Import Provisioning.

Lemma scan_projects_found (l : list record) (n : string) (p : record) :
  scan_projects l n = Some p ->
  In p l /\ Dict.get p "projectName" = Some (JStr n).
Proof.
  induction l as [|q l IH]; simpl; [discriminate|].
  destruct (eq_str (Dict.get q "projectName") n) eqn:E.
  - intros H. injection H as <-. split; [now left|].
    now apply eq_str_true.
  - intros H. destruct (IH H). split; [now right|assumption].
Qed.

Lemma scan_projects_none (l : list record) (n : string) :
  scan_projects l n = None ->
  forall p, In p l -> Dict.get p "projectName" <> Some (JStr n).
Proof.
  induction l as [|q l IH]; simpl; [contradiction|].
  destruct (eq_str (Dict.get q "projectName") n) eqn:E; [discriminate|].
  intros H p [<-|Hin].
  - intros Hq. apply eq_str_true in Hq. congruence.
  - now apply IH.
Qed.

(** What [_project_exists] returns: never [True]; the summary of a listed
    project of that name, or [False] when no page lists one. *)
Lemma project_exists_cases (pages : list page) (n : string) :
  (exists p, _project_exists pages n = PyDict p /\ listed pages n p)
  \/ (_project_exists pages n = PyBool false /\ forall p, ~ listed pages n p).
Proof.
  induction pages as [|pg pages IH]; simpl.
  - right. split; [reflexivity|]. intros p (pg & l & [] & _).
  - destruct (scan_projects (match projects pg with Some l => l | None => [] end) n)
      as [p|] eqn:E.
    + left. exists p. split; [reflexivity|].
      apply scan_projects_found in E. destruct E as [Hin Hname].
      destruct (projects pg) as [l|] eqn:Hl; [|contradiction].
      exists pg, l. repeat split; auto. now left.
    + destruct IH as [(p & Hp & Hl)|[Hf Hno]].
      * left. exists p. split; [assumption|].
        destruct Hl as (pg' & l & Hin & Hrest). exists pg', l.
        split; [now right|assumption].
      * right. split; [assumption|].
        intros p (pg' & l & [<-|Hin] & Hl & Hp & Hname).
        -- rewrite Hl in E. exact (scan_projects_none _ _ E p Hp Hname).
        -- apply (Hno p). now exists pg', l.
Qed.

Lemma found_is_truthy (pages : list page) (n : string) (p : record) :
  _project_exists pages n = PyDict p -> py_truthy (PyDict p) = true.
Proof.
  intros H. destruct (project_exists_cases pages n) as [(q & Hq & Hl)|[Hf _]];
    [|congruence].
  assert (q = p) by congruence. subst q.
  destruct Hl as (_ & _ & _ & _ & _ & Hname).
  destruct p; [discriminate|reflexivity].
Qed.

Lemma not_truthy_is_false (pages : list page) (n : string) :
  py_truthy (_project_exists pages n) = false ->
  _project_exists pages n = PyBool false.
Proof.
  intros H. destruct (project_exists_cases pages n) as [(q & Hq & _)|[Hf _]];
    [|assumption].
  rewrite Hq in H. now rewrite (found_is_truthy _ _ _ Hq) in H.
Qed.

Lemma project_exists_app (s t : list page) (n : string) :
  _project_exists s n = PyBool false ->
  _project_exists (s ++ t) n = _project_exists t n.
Proof.
  induction s as [|pg s IH]; simpl; [reflexivity|].
  destruct (scan_projects _ n); [discriminate|exact IH].
Qed.


(** With a project of the name listed, the call returns at once. *)
Lemma create_when_listed (S : Type) (client : bda_client S) (self : manager)
    (name d st : string) (s : S) (p : record) :
  listed (list_data_automation_projects client s) name p ->
  exists q,
    create_bda_project client self name d st s
    = (s, [ListProjects], Ok (PyDict q))
    /\ listed (list_data_automation_projects client s) name q.
Proof.
  intros Hl.
  destruct (project_exists_cases (list_data_automation_projects client s) name)
    as [(q & Hq & Hlq)|[_ Hno]]; [|now destruct (Hno p)].
  exists q. split; [|exact Hlq]. unfold create_bda_project.
  now rewrite Hq, (found_is_truthy _ _ _ Hq).
Qed.



(** C9 fails on the code against its own docstring and return annotation:
    [_project_exists] never returns [True]; for a listed name it returns
    the project's summary dict. *)
Theorem project_exists_returns_summary :
  (forall pages n, _project_exists pages n <> PyBool true)
  /\ _project_exists
       [Page (Some [[("projectArn", JStr "arn:p");
                     ("projectName", JStr "BedrockDataAutomationProject")]])]
       "BedrockDataAutomationProject"
     = PyDict [("projectArn", JStr "arn:p");
               ("projectName", JStr "BedrockDataAutomationProject")].
Proof.
  split; [|reflexivity].
  intros pages n. destruct (project_exists_cases pages n)
    as [(q & Hq & _)|[Hf _]]; congruence.
Qed.

End ProvisioningFacts.

(** ** Frames *)

Section FrameFacts.
Import Pandas.

Lemma cell_set_same (r : record) (c : string) (v : json) :
  cell (Dict.set r c v) c = v.
Proof. unfold cell. now rewrite get_set_same. Qed.

Lemma cell_set_other (r : record) (c c' : string) (v : json) :
  c <> c' -> cell (Dict.set r c v) c' = cell r c'.
Proof. intros H. unfold cell. now rewrite get_set_other. Qed.

Lemma get_app (a b : record) (c : string) :
  Dict.get (a ++ b) c
  = match Dict.get a c with Some v => Some v | None => Dict.get b c end.
Proof.
  induction a as [|[k v] a IH]; simpl; [reflexivity|].
  now destruct (String.eqb k c).
Qed.

Lemma getitem_ok (df : DataFrame) (c : string) (s : Series) :
  getitem df c = Ok s ->
  has_column df c = true /\ s = map (fun r => cell r c) (rows df).
Proof.
  unfold getitem. destruct (has_column df c); [|discriminate].
  intros H. injection H as <-. now split.
Qed.

Lemma getitem_present (df : DataFrame) (c : string) :
  has_column df c = true ->
  getitem df c = Ok (map (fun r => cell r c) (rows df)).
Proof. unfold getitem. now intros ->. Qed.

Lemma json_normalize_ok (s : Series) (d : DataFrame) :
  json_normalize s = Ok d -> rows d = map _simple_json_normalize s.
Proof.
  unfold json_normalize. destruct (existsb is_list s); [discriminate|].
  intros H. now injection H as <-.
Qed.

Lemma assign_map {A : Type} (g : A -> record) (f : A -> json) (c : string)
    (l : list A) :
  assign (map g l) c (map f l) = map (fun x => Dict.set (g x) c (f x)) l.
Proof. induction l as [|x l IH]; simpl; [reflexivity|now rewrite IH]. Qed.

Lemma assign_length (rs : list record) (c : string) :
  forall s, List.length (assign rs c s) = List.length rs.
Proof. induction rs as [|r rs IH]; intros s; simpl; [|rewrite IH]; auto. Qed.

Lemma zip_rows_map (f : record -> record) (l : list record) :
  zip_rows l (map f l) = map (fun r => r ++ f r) l.
Proof. induction l as [|r l IH]; simpl; [reflexivity|now rewrite IH]. Qed.

Lemma concat_axis1_ok (a b t : DataFrame) :
  concat_axis1 a b = Ok t -> rows t = zip_rows (rows a) (rows b).
Proof.
  unfold concat_axis1. destruct (disjoint (columns a) (columns b));
    [|discriminate].
  intros H. now injection H as <-.
Qed.

Lemma explode_ok (df t : DataFrame) (c : string) :
  explode df c = Ok t ->
  has_column t c = true /\
  rows t = flat_map (fun r => map (Dict.set r c) (explode_cell (cell r c)))
                    (rows df).
Proof.
  unfold explode. destruct (negb (unique (columns df))); [discriminate|].
  destruct (has_column df c) eqn:E; [|discriminate]. simpl.
  intros H. injection H as <-. now split.
Qed.



Lemma items_from_present (s : Series) :
  forall i e, In e (items_from i s) -> snd e <> NaN.
Proof.
  induction s as [|v s IH]; intros i e; simpl; [contradiction|].
  destruct v; simpl; try apply IH;
    (intros [<-|Hin]; [simpl; discriminate|now apply (IH (S i))]).
Qed.

End FrameFacts.

(** ** Loading the detail documents *)

Section LoaderFacts.
Import Pandas Manager.

Lemma load_each_rows (s3 : storage) (es : list (nat * json)) :
  flat_map rows (load_each s3 es) = flat_map (loaded_rows s3) es.
Proof.
  induction es as [|[idx uri] es IH]; simpl; [reflexivity|].
  unfold loaded_rows at 1. simpl.
  destruct (read_json s3 uri) as [d|]; simpl; [|exact IH].
  rewrite IH. f_equal. now rewrite map_map.
Qed.

Lemma load_each_all_fail (s3 : storage) (es : list (nat * json)) :
  (forall e, In e es -> read_json s3 (snd e) = None) ->
  load_each s3 es = [].
Proof.
  induction es as [|[idx uri] es IH]; intros H; simpl; [reflexivity|].
  pose proof (H (idx, uri) (or_introl eq_refl)) as Hf. simpl in Hf.
  rewrite Hf. apply IH.
  intros e He. apply H. now right.
Qed.

(** With the path column there, the loader returns, and its table holds
    what each entry contributes, in the order of the entries. *)
Lemma read_rows (s3 : storage) (df : DataFrame) (c : string) :
  has_column df c = true ->
  exists t, read_custom_out_path_and_load s3 df c = Ok t /\
            rows t = flat_map (loaded_rows s3) (path_entries df c).
Proof.
  intros Hc. unfold read_custom_out_path_and_load.
  rewrite (getitem_present _ _ Hc). simpl. fold (path_entries df c).
  pose proof (load_each_rows s3 (path_entries df c)) as Hr.
  destruct (load_each s3 (path_entries df c)) as [|d dfs].
  - exists empty. split; [reflexivity|exact Hr].
  - eexists. split; [reflexivity|exact Hr].
Qed.

Lemma read_ok_column (s3 : storage) (df t : DataFrame) (c : string) :
  read_custom_out_path_and_load s3 df c = Ok t -> has_column df c = true.
Proof.
  unfold read_custom_out_path_and_load, getitem.
  destruct (has_column df c); [reflexivity|discriminate].
Qed.

Lemma loaded_rows_tagged (s3 : storage) (e : nat * json) (r : record) :
  In r (loaded_rows s3 e) ->
  cell r "source_index" = JNum (Z.of_nat (fst e)) /\
  cell r "source_file" = snd e.
Proof.
  unfold loaded_rows. destruct (read_json s3 (snd e)) as [d|]; [|contradiction].
  intros Hin. apply in_map_iff in Hin. destruct Hin as (r0 & <- & _).
  split.
  - rewrite cell_set_other by discriminate. apply cell_set_same.
  - apply cell_set_same.
Qed.

(** The one exception the loader lets through is the [KeyError] of a path
    column that is not there. *)
Lemma loader_raises_only_key_error (s3 : storage) (df : DataFrame)
    (c : string) (e : exn) :
  read_custom_out_path_and_load s3 df c = Raise e ->
  e = KeyError c /\ has_column df c = false.
Proof.
  destruct (has_column df c) eqn:Hc.
  - destruct (read_rows s3 df c Hc) as (t & Ht & _). congruence.
  - unfold read_custom_out_path_and_load, getitem. rewrite Hc. simpl.
    intros H. injection H as <-. now split.
Qed.

(** C10: with respect to fetch failures the loader is total.  Whatever the
    storage does at each location, the loader returns a table and raises
    nothing; when the path column has no entry that is present, or when
    every fetch fails, the table is the empty frame, with no rows. *)
Theorem loader_total (s3 : storage) (final_df : DataFrame)
    (path_column : string) :
  has_column final_df path_column = true ->
  (exists t, read_custom_out_path_and_load s3 final_df path_column = Ok t)
  /\ (path_entries final_df path_column = [] ->
      read_custom_out_path_and_load s3 final_df path_column = Ok empty)
  /\ ((forall e, In e (path_entries final_df path_column) ->
         read_json s3 (snd e) = None) ->
      read_custom_out_path_and_load s3 final_df path_column = Ok empty)
  /\ rows empty = [].
Proof.
  intros Hc. split; [|split; [|split; [|reflexivity]]].
  - destruct (read_rows s3 final_df path_column Hc) as (t & Ht & _).
    now exists t.
  - intros He. unfold read_custom_out_path_and_load.
    rewrite (getitem_present _ _ Hc). simpl.
    fold (path_entries final_df path_column). now rewrite He.
  - intros Hfail. unfold read_custom_out_path_and_load.
    rewrite (getitem_present _ _ Hc). simpl.
    fold (path_entries final_df path_column).
    now rewrite (load_each_all_fail s3 _ Hfail).
Qed.

Lemma loader_total_witness :
  (exists t,
     read_custom_out_path_and_load (fun _ => None)
       (Frame ["standard_output_path"]
              [[("standard_output_path", JStr "s3://out/a.json")];
               [("standard_output_path", NaN)]])
       "standard_output_path" = Ok t)
  /\ read_custom_out_path_and_load (fun _ => None)
       (Frame ["standard_output_path"]
              [[("standard_output_path", JStr "s3://out/a.json")];
               [("standard_output_path", NaN)]])
       "standard_output_path" = Ok empty.
Proof.
  destruct (loader_total (fun _ => None)
              (Frame ["standard_output_path"]
                     [[("standard_output_path", JStr "s3://out/a.json")];
                      [("standard_output_path", NaN)]])
              "standard_output_path" eq_refl) as (H1 & _ & H3 & _).
  split; [exact H1|]. apply H3. intros e _. destruct e as [i [| | |u| |]];
    reflexivity.
Defined.

End LoaderFacts.

(** ** The reconciler *)

Section ReconcilerFacts.
Import Pandas Manager Samples.

Ltac bind_ok H x Hx :=
  match type of H with
  | bind ?m _ = Ok _ =>
      destruct m as [x|] eqn:Hx; [cbn [bind] in H|discriminate H]
  end.

Lemma assign_same (f : record -> json) (c : string) (l : list record) :
  assign l c (map f l) = map (fun r => Dict.set r c (f r)) l.
Proof. induction l as [|r l IH]; simpl; [reflexivity|now rewrite IH]. Qed.

(** A column of a normalised column, read back row by row. *)
Lemma normalized_column (df n : DataFrame) (c k : string) (s col : Series) :
  getitem df c = Ok s ->
  json_normalize s = Ok n ->
  getitem n k = Ok col ->
  col = map (fun r => cell (_simple_json_normalize (cell r c)) k) (rows df).
Proof.
  intros Hs Hn Hcol.
  apply getitem_ok in Hs. destruct Hs as [_ ->].
  apply json_normalize_ok in Hn. apply getitem_ok in Hcol.
  destruct Hcol as [_ ->]. rewrite Hn. now rewrite !map_map.
Qed.

(** The column-wise branch of [main] does to every row what the
    record-wise extraction does for the one tag it was given. *)
Lemma extract_modality_rows (tag : json) (df df' : DataFrame) :
  extract_modality tag df = Ok df' ->
  rows df' = map (enrich_record tag) (rows df).
Proof.
  unfold extract_modality, enrich_record.
  destruct (is_str tag "IMAGE"); [|destruct (is_str tag "VIDEO")].
  - intros H. bind_ok H image Hi. bind_ok H n Hn. bind_ok H summary Hs.
    bind_ok H words Hw. bind_ok H lines Hl. injection H as <-.
    rewrite (normalized_column _ _ _ _ _ _ Hi Hn Hs).
    rewrite (normalized_column _ _ _ _ _ _ Hi Hn Hw).
    rewrite (normalized_column _ _ _ _ _ _ Hi Hn Hl).
    cbn [setitem rows]. rewrite assign_same, !assign_map.
    apply map_ext. intros r. reflexivity.
  - intros H. bind_ok H video Hv. bind_ok H n Hn. bind_ok H summary Hs.
    bind_ok H text Ht. injection H as <-.
    rewrite (normalized_column _ _ _ _ _ _ Hv Hn Hs).
    rewrite (normalized_column _ _ _ _ _ _ Hv Hn Ht).
    cbn [setitem rows]. rewrite assign_same, !assign_map.
    apply map_ext. intros r. reflexivity.
  - intros H. injection H as <-. now rewrite map_id.
Qed.

(** What [main] went through when it reaches the final table. *)
Lemma main_reconcile_ok (s3 : storage) (m : DataFrame) (t : tables) :
  main_reconcile s3 m = Ok t ->
  exists tag loaded,
    (semantic_modality <- getitem m "semantic_modality" ;;
     loc0 semantic_modality) = Ok tag
    /\ load_custom s3 m = Ok (custom_extracted_details t)
    /\ read_custom_out_path_and_load s3 m "standard_output_path" = Ok loaded
    /\ extract_modality tag loaded = Ok (standard_extracted_details t)
    /\ rows (final_result_bda_pd t)
       = rows (custom_extracted_details t)
         ++ rows (standard_extracted_details t).
Proof.
  unfold main_reconcile. intros H.
  bind_ok H sm Hsm. bind_ok H tag Htag. bind_ok H custom Hcu.
  bind_ok H loaded Hlo. bind_ok H standard Hst. injection H as <-.
  exists tag, loaded. cbn [bind]. rewrite Htag. simpl.
  rewrite app_nil_r. repeat split; auto.
Qed.

(** C1, as amended: the branch is chosen once, by the modality tag of the
    first manifest row, and applied to every STANDARD record.  So a record
    is enriched according to the tag of its own row whenever that tag is
    the first row's tag. *)
Theorem modality_branch_follows_first_row (s3 : storage)
    (exploded_job_metadata : DataFrame) (t : tables) :
  main_reconcile s3 exploded_job_metadata = Ok t ->
  exists tag loaded,
    (semantic_modality <- getitem exploded_job_metadata "semantic_modality" ;;
     loc0 semantic_modality) = Ok tag
    /\ match rows exploded_job_metadata with
       | first :: _ => tag = cell first "semantic_modality"
       | [] => False
       end
    /\ read_custom_out_path_and_load s3 exploded_job_metadata
         "standard_output_path" = Ok loaded
    /\ rows (standard_extracted_details t)
       = map (enrich_record tag) (rows loaded)
    /\ (forall i r,
          nth_error (rows loaded) i = Some r ->
          own_tag exploded_job_metadata r = tag ->
          nth_error (rows (standard_extracted_details t)) i
          = Some (enrich_record (own_tag exploded_job_metadata r) r)).
Proof.
  intros H. destruct (main_reconcile_ok _ _ _ H)
    as (tag & loaded & Htag & _ & Hlo & Hex & _).
  apply extract_modality_rows in Hex.
  exists tag, loaded. split; [exact Htag|]. split.
  - bind_ok Htag sm Hsm. apply getitem_ok in Hsm. destruct Hsm as [_ ->].
    destruct (rows exploded_job_metadata); simpl in Htag;
      [discriminate|congruence].
  - split; [exact Hlo|]. split; [exact Hex|].
    intros i r Hr Hown. rewrite Hex, Hown. now apply map_nth_error.
Qed.

Lemma modality_branch_follows_first_row_witness :
  exists tag loaded,
    (semantic_modality <- getitem two_images "semantic_modality" ;;
     loc0 semantic_modality) = Ok tag
    /\ match rows two_images with
       | first :: _ => tag = cell first "semantic_modality"
       | [] => False
       end
    /\ read_custom_out_path_and_load both_present two_images
         "standard_output_path" = Ok loaded
    /\ rows (standard_extracted_details
               (tables_of (main_reconcile both_present two_images)))
       = map (enrich_record tag) (rows loaded)
    /\ (forall i r,
          nth_error (rows loaded) i = Some r ->
          own_tag two_images r = tag ->
          nth_error (rows (standard_extracted_details
                             (tables_of (main_reconcile both_present two_images)))) i
          = Some (enrich_record (own_tag two_images r) r)).
Proof.
  apply (modality_branch_follows_first_row both_present two_images
           (tables_of (main_reconcile both_present two_images))).
  vm_compute. reflexivity.
Defined.

(** C1 as stated fails: in a manifest whose first row is a DOCUMENT and
    whose second row is a VIDEO, the record of the second row is left as
    loaded; the transcript its own tag calls for is not extracted. *)
Lemma modality_branch_ignores_later_rows :
  exists t loaded r,
    main_reconcile mixed_bucket mixed_manifest = Ok t
    /\ read_custom_out_path_and_load mixed_bucket mixed_manifest
         "standard_output_path" = Ok loaded
    /\ nth_error (rows loaded) 1 = Some r
    /\ own_tag mixed_manifest r = JStr "VIDEO"
    /\ cell (enrich_record (own_tag mixed_manifest r) r) "extracted_transcript"
       = JStr "hello"
    /\ nth_error (rows (standard_extracted_details t)) 1 = Some r
    /\ cell r "extracted_transcript" = NaN
    /\ nth_error (rows (standard_extracted_details t)) 1
       <> Some (enrich_record (own_tag mixed_manifest r) r).
Proof.
  do 3 eexists. split; [vm_compute; reflexivity|].
  split; [vm_compute; reflexivity|].
  split; [reflexivity|]. split; [reflexivity|]. split; [reflexivity|].
  split; [reflexivity|]. split; [reflexivity|]. vm_compute. discriminate.
Qed.


(** Beyond the skipped row: when the one custom document of a manifest
    cannot be fetched, [main] raises at line 289, on the column
    [matched_blueprint] of an empty table. *)
Remark failed_custom_fetch_raises :
  main_reconcile
    (bucket [("s3://out/0/standard_output.json",
              image_document "x" [] [])])
    (manifest [segment "IMAGE" (JStr "s3://out/0/custom_output.json")
                       "s3://out/0/standard_output.json"])
  = Raise (KeyError "matched_blueprint").
Proof. reflexivity. Qed.

Lemma map_assign_stable {B : Type} (f : record -> B) (c : string) :
  (forall r v, f (Dict.set r c v) = f r) ->
  forall rs s, map f (assign rs c s) = map f rs.
Proof.
  intros Hf. induction rs as [|r rs IH]; intros s; simpl; [reflexivity|].
  now rewrite Hf, IH.
Qed.

Lemma source_set (r : record) (c : string) (v : json) :
  c <> "source_index" -> c <> "source_file" ->
  source (Dict.set r c v) = source r.
Proof.
  intros H1 H2. unfold source. now rewrite !cell_set_other.
Qed.

Lemma source_enrich (tag : json) (r : record) :
  source (enrich_record tag r) = source r.
Proof.
  unfold enrich_record.
  destruct (is_str tag "IMAGE"); [|destruct (is_str tag "VIDEO")];
    now rewrite ?source_set by discriminate.
Qed.

Lemma source_loaded (s3 : storage) (e : nat * json) :
  map source (loaded_rows s3 e)
  = match read_json s3 (snd e) with
    | Some d => map (fun _ => (JNum (Z.of_nat (fst e)), snd e)) (rows d)
    | None => []
    end.
Proof.
  unfold loaded_rows. destruct (read_json s3 (snd e)) as [d|]; [|reflexivity].
  rewrite map_map. apply map_ext. intros r. unfold source.
  rewrite cell_set_same, cell_set_other by discriminate.
  now rewrite cell_set_same.
Qed.

Lemma one_row {A B : Type} (l : list A) (b : B) :
  List.length l = 1 -> map (fun _ => b) l = [b].
Proof. destruct l as [|a [|a' l]]; simpl; try discriminate; reflexivity. Qed.

(** C7: the final table is the union of the two kinds of rows.  For a
    manifest of two segments, A with a custom and a standard output and B
    with a standard output only, each output one record, the final table
    has one row loaded from A's custom output and two rows loaded from the
    standard outputs of A and B, three rows in all: the custom rows first,
    the standard rows after them, none merged. *)
Theorem union_keeps_both_kinds (s3 : storage)
    (exploded_job_metadata : DataFrame) (t : tables)
    (rA rB : record) (ca sa sb : string) (dc da db : DataFrame) :
  has_column exploded_job_metadata "custom_output_path" = true ->
  rows exploded_job_metadata = [rA; rB] ->
  cell rA "custom_output_path" = JStr ca ->
  cell rB "custom_output_path" = NaN ->
  cell rA "standard_output_path" = JStr sa ->
  cell rB "standard_output_path" = JStr sb ->
  s3 ca = Some dc -> s3 sa = Some da -> s3 sb = Some db ->
  List.length (rows dc) = 1 ->
  List.length (rows da) = 1 ->
  List.length (rows db) = 1 ->
  main_reconcile s3 exploded_job_metadata = Ok t ->
  map source (rows (custom_extracted_details t)) = [(JNum 0, JStr ca)]
  /\ map source (rows (standard_extracted_details t))
     = [(JNum 0, JStr sa); (JNum 1, JStr sb)]
  /\ rows (final_result_bda_pd t)
     = rows (custom_extracted_details t)
       ++ rows (standard_extracted_details t)
  /\ List.length (rows (final_result_bda_pd t)) = 3.
Proof.
  intros Hcol Hrows HcA HcB HsA HsB Hdc Hda Hdb Hlc Hla Hlb Hmain.
  destruct (main_reconcile_ok _ _ _ Hmain)
    as (tag & loaded & _ & Hcu & Hlo & Hex & Hfinal).
  assert (Hcustom : map source (rows (custom_extracted_details t))
                    = [(JNum 0, JStr ca)]).
  { unfold load_custom in Hcu. rewrite Hcol in Hcu.
    bind_ok Hcu c0 Hc0. bind_ok Hcu mb Hmb. bind_ok Hcu n Hn.
    bind_ok Hcu names Hnames. injection Hcu as <-.
    cbn [setitem rows].
    rewrite (map_assign_stable source "blueprintName")
      by (intros; apply source_set; discriminate).
    destruct (read_rows s3 exploded_job_metadata "custom_output_path" Hcol)
      as (c0' & Hc0' & Hr).
    rewrite Hc0 in Hc0'. injection Hc0' as <-. rewrite Hr.
    unfold path_entries. rewrite Hrows. cbn [map]. rewrite HcA, HcB.
    cbn [dropna_items items_from flat_map]. rewrite app_nil_r.
    rewrite source_loaded. cbn [snd fst read_json]. rewrite Hdc.
    now apply one_row. }
  assert (Hstandard : map source (rows (standard_extracted_details t))
                      = [(JNum 0, JStr sa); (JNum 1, JStr sb)]).
  { apply extract_modality_rows in Hex. rewrite Hex, map_map.
    rewrite (map_ext _ source (source_enrich tag)).
    pose proof (read_ok_column _ _ _ _ Hlo) as Hscol.
    destruct (read_rows s3 exploded_job_metadata "standard_output_path" Hscol)
      as (l' & Hl' & Hr).
    rewrite Hlo in Hl'. injection Hl' as <-. rewrite Hr.
    unfold path_entries. rewrite Hrows. cbn [map]. rewrite HsA, HsB.
    cbn [dropna_items items_from flat_map]. rewrite app_nil_r, map_app.
    rewrite !source_loaded. cbn [snd fst read_json]. rewrite Hda, Hdb.
    now rewrite (one_row _ _ Hla), (one_row _ _ Hlb). }
  split; [exact Hcustom|]. split; [exact Hstandard|].
  split; [exact Hfinal|].
  rewrite Hfinal, length_app.
  rewrite <- (length_map source (rows (custom_extracted_details t))).
  rewrite <- (length_map source (rows (standard_extracted_details t))).
  now rewrite Hcustom, Hstandard.
Qed.

Lemma union_keeps_both_kinds_witness :
  map source (rows (custom_extracted_details
                      (tables_of (main_reconcile a_and_b_bucket a_and_b))))
  = [(JNum 0, JStr "s3://out/0/custom_output.json")]
  /\ map source (rows (standard_extracted_details
                         (tables_of (main_reconcile a_and_b_bucket a_and_b))))
     = [(JNum 0, JStr "s3://out/0/standard_output.json");
        (JNum 1, JStr "s3://out/1/standard_output.json")]
  /\ rows (final_result_bda_pd
             (tables_of (main_reconcile a_and_b_bucket a_and_b)))
     = rows (custom_extracted_details
               (tables_of (main_reconcile a_and_b_bucket a_and_b)))
       ++ rows (standard_extracted_details
                  (tables_of (main_reconcile a_and_b_bucket a_and_b)))
  /\ List.length (rows (final_result_bda_pd
                          (tables_of (main_reconcile a_and_b_bucket a_and_b))))
     = 3.
Proof.
  apply (union_keeps_both_kinds a_and_b_bucket a_and_b
           (tables_of (main_reconcile a_and_b_bucket a_and_b))
           (segment "IMAGE" (JStr "s3://out/0/custom_output.json")
                    "s3://out/0/standard_output.json")
           (segment "IMAGE" NaN "s3://out/1/standard_output.json")
           "s3://out/0/custom_output.json"
           "s3://out/0/standard_output.json"
           "s3://out/1/standard_output.json"
           (from_records [custom_document "Advertisement"])
           (from_records [image_document "x" [JStr "a"; JStr "b"] [JStr "ab"]])
           (from_records [image_document "y" [JStr "c"] [JStr "c"]]));
    reflexivity.
Defined.

(** C8: the modality-specific extraction fills the columns from the nested
    fields.  A STANDARD record of an IMAGE manifest whose image structure
    has the summary [x], the words [text_words] and the lines [text_lines]
    comes out with these in the columns [summary], [extracted_text_words]
    and [extracted_text_lines]; a STANDARD record of a VIDEO manifest comes
    out with the video summary in [summary] and the text found under
    transcript, representation, text in [extracted_transcript]. *)
Theorem modality_extraction_columns
    (x : string) (text_words text_lines : list json) (s text : string) :
  (exists t r,
     main_reconcile
       (bucket [("s3://out/0/standard_output.json",
                 image_document x text_words text_lines)])
       (standard_only [("IMAGE", "s3://out/0/standard_output.json")]) = Ok t
     /\ rows (final_result_bda_pd t) = [r]
     /\ cell r "summary" = JStr x
     /\ cell r "extracted_text_words" = JList text_words
     /\ cell r "extracted_text_lines" = JList text_lines
     /\ has_column (final_result_bda_pd t) "summary" = true
     /\ has_column (final_result_bda_pd t) "extracted_text_words" = true
     /\ has_column (final_result_bda_pd t) "extracted_text_lines" = true)
  /\ (exists t r,
        main_reconcile
          (bucket [("s3://out/0/standard_output.json",
                    video_document s text)])
          (standard_only [("VIDEO", "s3://out/0/standard_output.json")]) = Ok t
        /\ rows (final_result_bda_pd t) = [r]
        /\ cell r "summary" = JStr s
        /\ cell r "extracted_transcript" = JStr text
        /\ has_column (final_result_bda_pd t) "summary" = true
        /\ has_column (final_result_bda_pd t) "extracted_transcript" = true).
Proof.
  split; do 2 eexists; (split; [vm_compute; reflexivity|]);
    repeat split; reflexivity.
Qed.

End ReconcilerFacts.

(** ** Manifest expansion *)

Section ExpansionFacts.
Import Pandas Manager Samples.

Ltac bind_ok H x Hx :=
  match type of H with
  | bind ?m _ = Ok _ =>
      destruct m as [x|] eqn:Hx; [cbn [bind] in H|discriminate H]
  end.

Lemma map_flat_map_rows {A B C : Type} (g : B -> C) (h : A -> list B)
    (l : list A) :
  map g (flat_map h l) = flat_map (fun x => map g (h x)) l.
Proof.
  induction l as [|x l IH]; simpl; [reflexivity|].
  now rewrite map_app, IH.
Qed.

Lemma flat_map_map_rows {A B C : Type} (f : A -> B) (h : B -> list C)
    (l : list A) :
  flat_map h (map f l) = flat_map (fun x => h (f x)) l.
Proof. induction l as [|x l IH]; simpl; [reflexivity|now rewrite IH]. Qed.

Lemma retrieve_rows (df t : DataFrame) :
  retrieve_inference_results df = Ok t ->
  rows t = flat_map expand_row (rows df).
Proof.
  unfold retrieve_inference_results. intros H.
  bind_ok H om Hom. bind_ok H n1 Hn1. bind_ok H df1 Hdf1.
  bind_ok H exploded Hex. bind_ok H sm Hsm. bind_ok H n2 Hn2.
  apply getitem_ok in Hom. destruct Hom as [_ ->].
  apply json_normalize_ok in Hn1. rewrite map_map in Hn1.
  apply concat_axis1_ok in Hdf1. rewrite Hn1, zip_rows_map in Hdf1.
  apply explode_ok in Hex. destruct Hex as [_ Hex].
  rewrite Hdf1, flat_map_map_rows in Hex.
  apply getitem_ok in Hsm. destruct Hsm as [_ ->].
  apply json_normalize_ok in Hn2. rewrite map_map in Hn2.
  apply concat_axis1_ok in H. rewrite Hn2, zip_rows_map in H.
  rewrite H, Hex, map_flat_map_rows. apply flat_map_ext. intros r.
  unfold expand_row, flattened. rewrite map_map. apply map_ext.
  intros seg. now rewrite cell_set_same.
Qed.

Lemma expand_row_segments (r : record) (l : list json) :
  cell (flattened r) "segment_metadata" = JList l -> l <> [] ->
  expand_row r
  = map (fun seg => Dict.set (flattened r) "segment_metadata" seg
                      ++ _simple_json_normalize seg) l.
Proof.
  intros Hl Hne. unfold expand_row. rewrite Hl.
  destruct l; [contradiction|reflexivity].
Qed.

(** C6, as amended: loading expands the segments one-to-many.  The rows of
    the loaded manifest are, asset by asset, the rows each asset expands
    to.  An asset whose segment list has N entries, N at least 1, becomes
    exactly N rows; the i-th carries the i-th segment, that segment's
    flattened metadata in the columns the asset does not have, and the
    asset's own columns unchanged.  An asset whose segment list is empty
    becomes one row, its segment missing. *)
Theorem manifest_expansion (df_invocation_metadata t : DataFrame) :
  retrieve_inference_results df_invocation_metadata = Ok t ->
  rows t = flat_map expand_row (rows df_invocation_metadata)
  /\ (forall r l,
        cell (flattened r) "segment_metadata" = JList l -> l <> [] ->
        List.length (expand_row r) = List.length l)
  /\ (forall r l i seg,
        cell (flattened r) "segment_metadata" = JList l ->
        nth_error l i = Some seg ->
        exists row,
          nth_error (expand_row r) i = Some row
          /\ cell row "segment_metadata" = seg
          /\ (forall k, Dict.mem (flattened r) k = false ->
                k <> "segment_metadata" ->
                cell row k = cell (_simple_json_normalize seg) k)
          /\ (forall c, Dict.mem r c = true -> c <> "segment_metadata" ->
                cell row c = cell r c))
  /\ (forall r,
        cell (flattened r) "segment_metadata" = JList [] ->
        exists row, expand_row r = [row]
                    /\ cell row "segment_metadata" = NaN).
Proof.
  intros H. split; [now apply retrieve_rows|]. split; [|split].
  - intros r l Hl Hne. rewrite (expand_row_segments r l Hl Hne).
    apply length_map.
  - intros r l i seg Hl Hseg.
    assert (Hne : l <> []) by (intros ->; destruct i; discriminate).
    rewrite (expand_row_segments r l Hl Hne).
    eexists. split; [apply map_nth_error; exact Hseg|].
    unfold cell. split; [|split].
    + now rewrite get_app, get_set_same.
    + intros k Hk Hne'. rewrite get_app, get_set_other by congruence.
      unfold Dict.mem in Hk.
      destruct (Dict.get (flattened r) k); [discriminate|reflexivity].
    + intros c Hc Hne'. rewrite get_app, get_set_other by congruence.
      unfold flattened. rewrite get_app. unfold Dict.mem in Hc.
      destruct (Dict.get r c); [reflexivity|discriminate].
  - intros r Hl. unfold expand_row. rewrite Hl. simpl.
    eexists. split; [reflexivity|].
    unfold cell. now rewrite get_app, get_set_same.
Qed.

Lemma manifest_expansion_witness :
  rows (frame_of (retrieve_inference_results three_and_one))
  = flat_map expand_row (rows three_and_one)
  /\ List.length (rows (frame_of (retrieve_inference_results three_and_one)))
     = 4.
Proof.
  destruct (manifest_expansion three_and_one
              (frame_of (retrieve_inference_results three_and_one))
              eq_refl) as (H & _).
  split; [exact H|reflexivity].
Defined.

(** C6 as stated fails for N = 0: of two assets with three segments and
    with none, the loaded manifest has four rows, the fourth standing for
    the asset without segments. *)
Lemma empty_segment_list_keeps_a_row :
  exists t,
    retrieve_inference_results three_and_none = Ok t
    /\ map (fun r => List.length
                       (match cell (flattened r) "segment_metadata" with
                        | JList l => l
                        | _ => []
                        end)) (rows three_and_none) = [3; 0]
    /\ map (fun r => cell r "asset_id") (rows t)
       = [JNum 0; JNum 0; JNum 0; JNum 1]
    /\ List.length (rows t) = 4.
Proof.
  eexists. split; [vm_compute; reflexivity|].
  split; [reflexivity|]. split; reflexivity.
Qed.

End ExpansionFacts.


(** * Further properties of the code *)

(** ** The poller, read backwards *)

Section PollerMore.
Import Poller.

Lemma poll_loop_inv (script : list record) :
  forall (r final : record) (evs : list event),
    poll_loop r script = Some (final, evs) ->
    exists pre post,
      r :: script = pre ++ final :: post
      /\ Forall (fun q => in_progress q = true) pre
      /\ in_progress final = false
      /\ evs = rounds (List.length pre).
Proof.
  induction script as [|next script IH]; intros r final evs H.
  - simpl in H. destruct (eq_str (Dict.get r "status") "InProgress") eqn:E;
      [discriminate|].
    injection H as <- <-. exists [], []. repeat split; auto.
  - cbn [poll_loop] in H.
    destruct (eq_str (Dict.get r "status") "InProgress") eqn:E.
    + destruct (poll_loop next script) as [[f e]|] eqn:Hn; [|discriminate].
      injection H as <- <-.
      destruct (IH next f e Hn) as (pre & post & Heq & Hall & Hf & He).
      exists (r :: pre), post. rewrite Heq. repeat split; auto.
      now rewrite He.
    + injection H as <- <-. exists [], (next :: script). repeat split; auto.
Qed.

Lemma rounds_delays (n : nat) :
  delays (rounds n) = repeat 10%Z n /\ queries (rounds n) = n.
Proof.
  induction n as [|n [IHd IHq]]; [now split|].
  split.
  - simpl. f_equal. exact IHd.
  - unfold queries in *. simpl. f_equal. exact IHq.
Qed.

(** X1: the poller returns exactly the first response whose status is not
    [InProgress]: a result comes with a split of the script into responses
    that all say [InProgress], the response returned, and the responses
    never asked for; and every such split gives that result. *)
Theorem poller_returns_first_other (script : list record) (final : record)
    (evs : list event) :
  main_poll script = Some (final, evs) <->
  exists pre post,
    script = pre ++ final :: post
    /\ Forall (fun q => in_progress q = true) pre
    /\ in_progress final = false
    /\ evs = GetStatus :: rounds (List.length pre).
Proof.
  split.
  - destruct script as [|first script]; [discriminate|]. simpl.
    destruct (poll_loop first script) as [[f e]|] eqn:H; [|discriminate].
    intros Heq. injection Heq as <- <-.
    destruct (poll_loop_inv script first f e H)
      as (pre & post & Hs & Hall & Hf & He).
    exists pre, post. repeat split; auto. now rewrite He.
  - intros (pre & post & -> & Hall & Hf & ->).
    destruct pre as [|first pre]; simpl.
    + now rewrite (poll_loop_leaves final post Hf).
    + now rewrite (poll_loop_rounds pre first final post Hall Hf).
Qed.

Lemma poller_returns_first_other_witness :
  exists pre post,
    [response IN_PROGRESS []; response FAILED []]
    = pre ++ response FAILED [] :: post
    /\ Forall (fun q => in_progress q = true) pre
    /\ in_progress (response FAILED []) = false
    /\ [GetStatus; Sleep 10; GetStatus]
       = GetStatus :: rounds (List.length pre).
Proof.
  apply (proj1 (poller_returns_first_other
                  [response IN_PROGRESS [];
                   response FAILED []]
                  (response FAILED [])
                  [GetStatus; Sleep 10; GetStatus])).
  reflexivity.
Defined.

(** X2: in every run of the poller that returns, each query but the first
    follows a delay, every delay is of 10 seconds, and no more queries are
    made than the service has answers. *)
Theorem poller_trace_shape (script : list record) (final : record)
    (evs : list event) :
  main_poll script = Some (final, evs) ->
  queries evs = S (List.length (delays evs))
  /\ Forall (fun d => d = 10%Z) (delays evs)
  /\ queries evs <= List.length script.
Proof.
  destruct script as [|first script]; [discriminate|]. simpl.
  destruct (poll_loop first script) as [[f e]|] eqn:H; [|discriminate].
  intros Heq. injection Heq as <- <-.
  destruct (poll_loop_inv script first f e H)
    as (pre & post & Hs & _ & _ & ->).
  destruct (rounds_delays (List.length pre)) as [Hd Hq].
  assert (Hlen : List.length pre <= List.length script).
  { apply (f_equal (@List.length record)) in Hs.
    rewrite length_app in Hs. simpl in Hs. lia. }
  unfold queries in *. cbn [filter List.length delays flat_map app].
  fold (delays (rounds (List.length pre))).
  rewrite Hd, Hq, repeat_length. repeat split; try lia.
  apply Forall_forall. intros d Hin. now apply repeat_spec in Hin.
Qed.

Lemma poller_trace_shape_witness :
  queries [GetStatus; Sleep 10; GetStatus] = 2
  /\ Forall (fun d => d = 10%Z) (delays [GetStatus; Sleep 10; GetStatus]).
Proof.
  destruct (poller_trace_shape
              [response IN_PROGRESS []; response SUCCEEDED []]
              (response SUCCEEDED []) [GetStatus; Sleep 10; GetStatus]
              eq_refl) as (Hq & Hd & _).
  split; [exact Hq|exact Hd].
Defined.

End PollerMore.

(** ** Provisioning, case by case *)

Section ProvisioningMore.
Import Provisioning Setup.

Lemma filter_none {A : Type} (f : A -> bool) (l : list A) :
  (forall x, In x l -> f x = false) -> filter f l = [].
Proof.
  induction l as [|x l IH]; intros H; simpl; [reflexivity|].
  rewrite (H x (or_introl eq_refl)). apply IH. intros y Hy. apply H. now right.
Qed.

Lemma eq_str_false (v : option json) (s : string) :
  v <> Some (JStr s) -> eq_str v s = false.
Proof.
  intros H. destruct (eq_str v s) eqn:E; [|reflexivity].
  apply eq_str_true in E. contradiction.
Qed.

(** X3: the manager takes the ARN of the first blueprint named
    [Advertisement], whatever comes after it; when that blueprint has no
    ARN, or no blueprint has the name, the manager has none. *)
Theorem advertisement_arn_first_match (pre : list record) (bp : record)
    (post : list record) :
  (forall b, In b pre ->
     Dict.get b "blueprintName" <> Some (JStr "Advertisement")) ->
  Dict.get bp "blueprintName" = Some (JStr "Advertisement") ->
  _get_advertisement_arn (pre ++ bp :: post) = Dict.get bp "blueprintArn"
  /\ _get_advertisement_arn pre = None.
Proof.
  intros Hpre Hbp. unfold _get_advertisement_arn.
  rewrite filter_app. simpl.
  rewrite (filter_none _ pre)
    by (intros b Hb; apply eq_str_false; now apply Hpre).
  apply eq_str_true in Hbp. rewrite Hbp. now split.
Qed.

Lemma advertisement_arn_first_match_witness :
  _get_advertisement_arn
    ([[("blueprintName", JStr "Invoice"); ("blueprintArn", JStr "arn:invoice")]]
     ++ [("blueprintName", JStr "Advertisement"); ("blueprintArn", JStr "arn:ad")]
     :: [[("blueprintName", JStr "Advertisement");
          ("blueprintArn", JStr "arn:other")]])
  = Some (JStr "arn:ad")
  /\ _get_advertisement_arn
       [[("blueprintName", JStr "Invoice"); ("blueprintArn", JStr "arn:invoice")]]
     = None.
Proof.
  apply (advertisement_arn_first_match
           [[("blueprintName", JStr "Invoice"); ("blueprintArn", JStr "arn:invoice")]]
           [("blueprintName", JStr "Advertisement"); ("blueprintArn", JStr "arn:ad")]
           [[("blueprintName", JStr "Advertisement");
             ("blueprintArn", JStr "arn:other")]]).
  - intros b [<-|[]]. discriminate.
  - reflexivity.
Defined.

(** X4: [_project_exists] answers with a truthy value exactly when some
    page lists a project of that name, and the value is then such a
    project's summary: the test [if __project_exist] never takes a listed
    project for a missing one. *)
Theorem project_exists_truthy_iff_listed (pages : list page) (n : string) :
  (py_truthy (_project_exists pages n) = true <-> exists p, listed pages n p)
  /\ (forall p, _project_exists pages n = PyDict p -> listed pages n p).
Proof.
  destruct (project_exists_cases pages n) as [(q & Hq & Hl)|[Hf Hno]].
  - split.
    + split; [intros _; now exists q|intros _].
      rewrite Hq. exact (found_is_truthy _ _ _ Hq).
    + intros p Hp. rewrite Hq in Hp. now injection Hp as <-.
  - split.
    + rewrite Hf. split; [discriminate|]. intros [p Hp]. now destruct (Hno p).
    + intros p Hp. congruence.
Qed.

Lemma scan_projects_first (lpre : list record) (p : record) (lpost : list record)
    (n : string) :
  (forall q, In q lpre -> Dict.get q "projectName" <> Some (JStr n)) ->
  Dict.get p "projectName" = Some (JStr n) ->
  scan_projects (lpre ++ p :: lpost) n = Some p.
Proof.
  intros Hpre Hp. induction lpre as [|q lpre IH]; simpl.
  - apply eq_str_true in Hp. now rewrite Hp.
  - rewrite (eq_str_false _ _ (Hpre q (or_introl eq_refl))).
    apply IH. intros q' Hq'. apply Hpre. now right.
Qed.

(** X5: of several listed projects of one name, [_project_exists] returns
    the first in the order of the pages and of the projects on a page. *)
Theorem project_exists_first_listed (ppre : list page) (lpre : list record)
    (p : record) (lpost : list record) (ppost : list page) (n : string) :
  (forall q, ~ listed ppre n q) ->
  (forall q, In q lpre -> Dict.get q "projectName" <> Some (JStr n)) ->
  Dict.get p "projectName" = Some (JStr n) ->
  _project_exists (ppre ++ Page (Some (lpre ++ p :: lpost)) :: ppost) n
  = PyDict p.
Proof.
  intros Hpp Hlp Hp.
  assert (Hf : _project_exists ppre n = PyBool false).
  { destruct (project_exists_cases ppre n) as [(q & _ & Hl)|[Hf _]];
      [now destruct (Hpp q)|exact Hf]. }
  rewrite (project_exists_app _ _ _ Hf). simpl.
  now rewrite (scan_projects_first lpre p lpost n Hlp Hp).
Qed.

Lemma project_exists_first_listed_witness :
  _project_exists
    ([Page None]
     ++ Page (Some ([[("projectName", JStr "other")]]
                    ++ [("projectName", JStr "P"); ("projectArn", JStr "arn:1")]
                    :: [[("projectName", JStr "P"); ("projectArn", JStr "arn:2")]]))
     :: []) "P"
  = PyDict [("projectName", JStr "P"); ("projectArn", JStr "arn:1")].
Proof.
  apply (project_exists_first_listed [Page None]
           [[("projectName", JStr "other")]]
           [("projectName", JStr "P"); ("projectArn", JStr "arn:1")]
           [[("projectName", JStr "P"); ("projectArn", JStr "arn:2")]] [] "P").
  - intros q (pg & l & [<-|[]] & Hl & _). discriminate.
  - intros q [<-|[]]. discriminate.
  - reflexivity.
Defined.

(** X7: with no project of the name listed and an ARN at hand,
    [create_bda_project] makes one create call, for the name, description
    and stage it was given and the Advertisement blueprint at stage LIVE,
    and returns what the service answered. *)
Theorem create_when_absent (S : Type) (client : bda_client S) (self : manager)
    (name d st : string) (s : S) (arn : json) :
  (forall p, ~ listed (list_data_automation_projects client s) name p) ->
  advertisement_arn self = Some arn ->
  truthy arn = true ->
  let req := CreateRequest name d st arn "LIVE" in
  create_bda_project client self name d st s
  = (fst (create_data_automation_project client s req),
     [ListProjects; CreateProject req],
     Ok (PyDict (snd (create_data_automation_project client s req)))).
Proof.
  intros Hno Harn Ht req. unfold create_bda_project.
  destruct (project_exists_cases (list_data_automation_projects client s) name)
    as [(q & _ & Hl)|[Hf _]]; [now destruct (Hno q)|].
  rewrite Hf, Harn. simpl. rewrite Ht. simpl. fold req.
  now destruct (create_data_automation_project client s req).
Qed.

Lemma create_when_absent_witness :
  create_bda_project paged_service (Manager (Some (JStr "arn:ad")))
    "P" "d" "LIVE" []
  = (fst (create_data_automation_project paged_service []
            (CreateRequest "P" "d" "LIVE" (JStr "arn:ad") "LIVE")),
     [ListProjects;
      CreateProject (CreateRequest "P" "d" "LIVE" (JStr "arn:ad") "LIVE")],
     Ok (PyDict (snd (create_data_automation_project paged_service []
                        (CreateRequest "P" "d" "LIVE" (JStr "arn:ad") "LIVE"))))).
Proof.
  apply (create_when_absent (list page) paged_service
           (Manager (Some (JStr "arn:ad"))) "P" "d" "LIVE" [] (JStr "arn:ad")).
  - intros p (pg & l & [] & _).
  - reflexivity.
  - reflexivity.
Defined.

(** X8: a manager set up from a blueprint listing without an
    [Advertisement] blueprint cannot create: for a name that is not listed
    it raises the [ValueError], and it still returns the listed project for
    a name that is. *)
Theorem manager_without_advertisement (S : Type) (client : bda_client S)
    (blueprints : list record) (name d st : string) (s : S) :
  (forall b, In b blueprints ->
     Dict.get b "blueprintName" <> Some (JStr "Advertisement")) ->
  exists self,
    init [("blueprints", blueprints)] = Ok self
    /\ advertisement_arn self = None
    /\ ((forall p, ~ listed (list_data_automation_projects client s) name p) ->
        create_bda_project client self name d st s
        = (s, [ListProjects],
           Raise (ValueError "Advertisement blueprint ARN not found.")))
    /\ (forall p, listed (list_data_automation_projects client s) name p ->
        exists q, create_bda_project client self name d st s
                  = (s, [ListProjects], Ok (PyDict q))).
Proof.
  intros Hno. eexists. split; [reflexivity|].
  assert (Harn : _get_advertisement_arn blueprints = None).
  { unfold _get_advertisement_arn.
    now rewrite (filter_none _ blueprints)
      by (intros b Hb; apply eq_str_false; now apply Hno). }
  split; [exact Harn|]. split.
  - intros Hnl. unfold create_bda_project.
    destruct (project_exists_cases (list_data_automation_projects client s) name)
      as [(q & _ & Hl)|[Hf _]]; [now destruct (Hnl q)|].
    rewrite Hf. simpl. now rewrite Harn.
  - intros p Hl.
    destruct (create_when_listed S client
                (Manager (_get_advertisement_arn blueprints)) name d st s p Hl)
      as (q & Hq & _).
    now exists q.
Qed.

Lemma manager_without_advertisement_witness :
  exists self,
    init [("blueprints", [[("blueprintName", JStr "Invoice")]])] = Ok self
    /\ advertisement_arn self = None
    /\ ((forall p, ~ listed (list_data_automation_projects paged_service []) "P" p) ->
        create_bda_project paged_service self "P" "d" "LIVE" []
        = ([], [ListProjects],
           Raise (ValueError "Advertisement blueprint ARN not found.")))
    /\ (forall p, listed (list_data_automation_projects paged_service []) "P" p ->
        exists q, create_bda_project paged_service self "P" "d" "LIVE" []
                  = ([], [ListProjects], Ok (PyDict q))).
Proof.
  apply (manager_without_advertisement (list page) paged_service
           [[("blueprintName", JStr "Invoice")]] "P" "d" "LIVE" []).
  intros b [<-|[]]. discriminate.
Defined.

End ProvisioningMore.

(** ** The invocation id *)

Section InvocationFacts.
Import Invocation.

Lemma append_empty (s : string) : (s ++ EmptyString)%string = s.
Proof. induction s as [|c s IH]; simpl; [reflexivity|now rewrite IH]. Qed.

Lemma split_not_nil (sep : Ascii.ascii) (s : string) : split sep s <> [].
Proof.
  destruct s as [|c s]; simpl; [discriminate|].
  destruct (Ascii.eqb c sep); [discriminate|].
  destruct (split sep s); discriminate.
Qed.

Lemma split_free (sep : Ascii.ascii) (a : string) :
  free_of sep a = true -> split sep a = [a].
Proof.
  induction a as [|c a IH]; simpl; [reflexivity|].
  destruct (Ascii.eqb c sep); simpl; [discriminate|].
  intros H. now rewrite (IH H).
Qed.

Lemma split_at_first (sep : Ascii.ascii) (a b : string) :
  free_of sep a = true ->
  split sep (a ++ String sep b) = a :: split sep b.
Proof.
  induction a as [|c a IH]; simpl.
  - intros _. now rewrite Ascii.eqb_refl.
  - destruct (Ascii.eqb c sep); simpl; [discriminate|].
    intros H. now rewrite (IH H).
Qed.

(** X9: splitting loses nothing: joining the pieces of a string with the
    separator gives the string back, and no piece holds the separator. *)
Theorem split_join_round_trip (sep : Ascii.ascii) (s : string) :
  join sep (split sep s) = s
  /\ Forall (fun piece => free_of sep piece = true) (split sep s).
Proof.
  induction s as [|c s [IHj IHf]]; [split; [reflexivity|repeat constructor]|].
  simpl. destruct (Ascii.eqb c sep) eqn:E.
  - apply Ascii.eqb_eq in E. subst c. split.
    + pose proof (split_not_nil sep s) as Hne.
      cbn [join]. destruct (split sep s) as [|w ws]; [contradiction|].
      now rewrite IHj.
    + constructor; [reflexivity|exact IHf].
  - pose proof (split_not_nil sep s) as Hne.
    destruct (split sep s) as [|w ws]; [contradiction|]. split.
    + cbn [join] in *. destruct ws as [|w' ws]; simpl in *; now rewrite IHj.
    + inversion IHf as [|? ? Hw Hws]; subst.
      constructor; [simpl; now rewrite E, Hw|exact Hws].
Qed.

(** X10: the invocation id [main] uses is the text between the first and
    the second ["/"] of the invocation ARN, up to the end when there is no
    second one. *)
Theorem invocation_id_between_slashes (prefix id tail : string)
    (rest : record) :
  free_of slash prefix = true ->
  free_of slash id = true ->
  tail = EmptyString \/ (exists t, tail = String slash t) ->
  invocation_id
    (("invocationArn", JStr (prefix ++ String slash (id ++ tail))) :: rest)
  = Id id.
Proof.
  intros Hp Hi Ht. unfold invocation_id. simpl.
  rewrite (split_at_first slash prefix (id ++ tail) Hp). simpl.
  destruct Ht as [->|[t ->]].
  - rewrite append_empty.
    now rewrite (split_free slash id Hi).
  - now rewrite (split_at_first slash id t Hi).
Qed.

Lemma invocation_id_between_slashes_witness :
  invocation_id
    [("invocationArn",
      JStr ("arn:aws:bedrock:us-east-1:1:data-automation-invocation"
            ++ String slash ("0f3a" ++ EmptyString)))]
  = Id "0f3a".
Proof.
  apply (invocation_id_between_slashes
           "arn:aws:bedrock:us-east-1:1:data-automation-invocation"
           "0f3a" EmptyString []).
  - reflexivity.
  - reflexivity.
  - now left.
Defined.

(** X11: line 274 fails with [IndexError] exactly when the invocation ARN
    has no ["/"]. *)
Theorem invocation_id_needs_slash (arn : string) (rest : record) :
  invocation_id (("invocationArn", JStr arn) :: rest) = IndexError
  <-> free_of slash arn = true.
Proof.
  unfold invocation_id. simpl. split.
  - induction arn as [|c arn IH]; [reflexivity|]. simpl.
    destruct (Ascii.eqb c slash) eqn:E; simpl.
    + pose proof (split_not_nil slash arn) as Hne.
      destruct (split slash arn); [contradiction|discriminate].
    + pose proof (split_not_nil slash arn) as Hne.
      destruct (split slash arn) as [|w ws] eqn:Hs; [contradiction|].
      simpl in *. exact IH.
  - intros H. now rewrite (split_free slash arn H).
Qed.

Lemma invocation_id_needs_slash_witness :
  free_of slash "arn:aws:bedrock:us-east-1:1:job" = true.
Proof.
  apply (proj1 (invocation_id_needs_slash "arn:aws:bedrock:us-east-1:1:job" [])).
  reflexivity.
Defined.

End InvocationFacts.

(** ** Columns and shapes *)

Section ShapeFacts.
Import Pandas Manager Shape.

Lemma has_add_column (cols : list string) (k c : string) :
  existsb (String.eqb c) (add_column cols k)
  = existsb (String.eqb c) cols || String.eqb c k.
Proof.
  unfold add_column. destruct (existsb (String.eqb k) cols) eqn:E.
  - destruct (String.eqb c k) eqn:Eck; [|now rewrite orb_false_r].
    apply String.eqb_eq in Eck. subst c. now rewrite E.
  - rewrite existsb_app. simpl. now rewrite orb_false_r.
Qed.

Lemma has_union_columns (b : list string) :
  forall (a : list string) (c : string),
    existsb (String.eqb c) (union_columns a b)
    = existsb (String.eqb c) a || existsb (String.eqb c) b.
Proof.
  unfold union_columns.
  induction b as [|k b IH]; intros a c; simpl; [now rewrite orb_false_r|].
  now rewrite IH, has_add_column, orb_assoc.
Qed.

Lemma has_fold_union {A : Type} (cols : A -> list string) (l : list A) :
  forall (acc : list string) (c : string),
    existsb (String.eqb c)
      (fold_left (fun acc x => union_columns acc (cols x)) l acc)
    = existsb (String.eqb c) acc
      || existsb (fun x => existsb (String.eqb c) (cols x)) l.
Proof.
  induction l as [|x l IH]; intros acc c; simpl; [now rewrite orb_false_r|].
  now rewrite IH, has_union_columns, orb_assoc.
Qed.

Lemma has_concat (dfs : list DataFrame) (c : string) :
  has_column (concat dfs) c = existsb (fun df => has_column df c) dfs.
Proof. unfold has_column at 1. simpl. now rewrite has_fold_union. Qed.

Lemma mem_set (r : record) (k k' : string) (v : json) :
  Dict.mem (Dict.set r k v) k' = Dict.mem r k' || String.eqb k k'.
Proof.
  unfold Dict.mem. destruct (String.eqb k k') eqn:E.
  - apply String.eqb_eq in E. subst k'. rewrite get_set_same.
    now rewrite orb_true_r.
  - rewrite get_set_other by (intros ->; now rewrite String.eqb_refl in E).
    now rewrite orb_false_r.
Qed.

Lemma wf_setitem_scalar (df : DataFrame) (c : string) (v : json) :
  well_formed df -> well_formed (setitem_scalar df c v).
Proof.
  intros Hwf r Hr k Hk. simpl in Hr. apply in_map_iff in Hr.
  destruct Hr as (r0 & <- & Hr0). rewrite mem_set in Hk.
  unfold has_column. simpl. rewrite has_add_column.
  apply orb_true_iff in Hk. destruct Hk as [Hk|Hk].
  - apply orb_true_iff. left. exact (Hwf r0 Hr0 k Hk).
  - apply orb_true_iff. right. now rewrite String.eqb_sym.
Qed.

Lemma in_assign (rs : list record) (c : string) :
  forall (s : Series) (r : record),
    In r (assign rs c s) -> exists r0 v, In r0 rs /\ r = Dict.set r0 c v.
Proof.
  induction rs as [|r0 rs IH]; intros s r; simpl; [contradiction|].
  intros [<-|Hin].
  - eexists r0, _. split; [now left|reflexivity].
  - destruct (IH _ _ Hin) as (r1 & v & Hr1 & ->).
    exists r1, v. split; [now right|reflexivity].
Qed.

Lemma wf_setitem (df : DataFrame) (c : string) (s : Series) :
  well_formed df -> well_formed (setitem df c s).
Proof.
  intros Hwf r Hr k Hk. simpl in Hr.
  destruct (in_assign _ _ _ _ Hr) as (r0 & v & Hr0 & ->).
  rewrite mem_set in Hk. unfold has_column. simpl. rewrite has_add_column.
  apply orb_true_iff in Hk. destruct Hk as [Hk|Hk].
  - apply orb_true_iff. left. exact (Hwf r0 Hr0 k Hk).
  - apply orb_true_iff. right. now rewrite String.eqb_sym.
Qed.

Lemma wf_concat (dfs : list DataFrame) :
  (forall df, In df dfs -> well_formed df) -> well_formed (concat dfs).
Proof.
  intros Hall r Hr k Hk. simpl in Hr. apply in_flat_map in Hr.
  destruct Hr as (df & Hdf & Hr). rewrite has_concat.
  apply existsb_exists. exists df. split; [exact Hdf|].
  exact (Hall df Hdf r Hr k Hk).
Qed.

Lemma wf_empty : well_formed empty.
Proof. intros r []. Qed.

(** The frames the loop of the loader collects. *)
Lemma in_load_each (s3 : storage) (es : list (nat * json)) (df : DataFrame) :
  In df (load_each s3 es) <->
  exists e d,
    In e es /\ read_json s3 (snd e) = Some d
    /\ df = setitem_scalar
              (setitem_scalar d "source_index" (JNum (Z.of_nat (fst e))))
              "source_file" (snd e).
Proof.
  induction es as [|[idx uri] es IH]; simpl.
  - split; [contradiction|]. now intros (e & d & [] & _).
  - destruct (read_json s3 uri) as [d0|] eqn:Hd; simpl.
    + split.
      * intros [<-|Hin].
        -- exists (idx, uri), d0. repeat split; auto.
        -- apply IH in Hin. destruct Hin as (e & d & He & Hrest).
           exists e, d. split; [now right|exact Hrest].
      * intros (e & d & [<-|He] & Hr & ->).
        -- left. simpl in Hr. rewrite Hd in Hr. now injection Hr as <-.
        -- right. apply IH. now exists e, d.
    + split.
      * intros Hin. apply IH in Hin. destruct Hin as (e & d & He & Hrest).
        exists e, d. split; [now right|exact Hrest].
      * intros (e & d & [<-|He] & Hr & ->).
        -- simpl in Hr. congruence.
        -- apply IH. now exists e, d.
Qed.

(** With the path column there, the loader's table is the concatenation of
    what the loop collected, the empty frame included. *)
Lemma read_is_concat (s3 : storage) (df : DataFrame) (c : string) :
  has_column df c = true ->
  read_custom_out_path_and_load s3 df c
  = Ok (concat (load_each s3 (path_entries df c))).
Proof.
  intros Hc. unfold read_custom_out_path_and_load.
  rewrite (getitem_present _ _ Hc). simpl. fold (path_entries df c).
  now destruct (load_each s3 (path_entries df c)).
Qed.

Lemma wf_read (s3 : storage) (df t : DataFrame) (c : string) :
  (forall uri d, s3 uri = Some d -> well_formed d) ->
  read_custom_out_path_and_load s3 df c = Ok t -> well_formed t.
Proof.
  intros Hs3 Ht. pose proof (read_ok_column _ _ _ _ Ht) as Hc.
  rewrite (read_is_concat s3 df c Hc) in Ht. injection Ht as <-.
  apply wf_concat. intros d' Hd'. apply in_load_each in Hd'.
  destruct Hd' as (e & d & _ & Hr & ->).
  apply wf_setitem_scalar, wf_setitem_scalar.
  destruct (snd e) as [| | |uri| |]; try discriminate. exact (Hs3 uri d Hr).
Qed.

End ShapeFacts.

(** ** The loaded table *)

Section LoaderMore.
Import Pandas Manager Shape.

Lemma items_from_nth (s : Series) :
  forall k i v,
    In (i, v) (items_from k s) ->
    k <= i /\ nth_error s (i - k) = Some v /\ v <> NaN.
Proof.
  induction s as [|v0 s IH]; intros k i v; simpl; [contradiction|].
  assert (Hrec : In (i, v) (items_from (S k) s) ->
                 k <= i /\ nth_error (v0 :: s) (i - k) = Some v /\ v <> NaN).
  { intros Hin. destruct (IH _ _ _ Hin) as (Hle & Hn & Hv).
    split; [lia|]. split; [|exact Hv].
    replace (i - k) with (S (i - S k)) by lia. exact Hn. }
  destruct v0; simpl; try exact Hrec;
    (intros [Heq|Hin]; [|now apply Hrec]);
    injection Heq as <- <-; rewrite Nat.sub_diag;
    (split; [lia|split; [reflexivity|discriminate]]).
Qed.

(** X12: every row of the loaded table is traceable to one manifest row:
    its [source_file] is the path that row holds in the path column, a path
    that is present and whose document could be fetched and has a record,
    and its [source_index] is that row's index, whatever the document
    itself says under these two names. *)
Theorem loaded_rows_traceable (s3 : storage) (final_df t : DataFrame)
    (path_column : string) (r : record) :
  read_custom_out_path_and_load s3 final_df path_column = Ok t ->
  In r (rows t) ->
  exists i m uri d,
    nth_error (rows final_df) i = Some m
    /\ cell m path_column = uri /\ uri <> NaN
    /\ read_json s3 uri = Some d /\ rows d <> []
    /\ cell r "source_index" = JNum (Z.of_nat i)
    /\ cell r "source_file" = uri.
Proof.
  intros Ht Hr. pose proof (read_ok_column _ _ _ _ Ht) as Hc.
  destruct (read_rows s3 final_df path_column Hc) as (t' & Ht' & Hrows).
  rewrite Ht in Ht'. injection Ht' as <-. rewrite Hrows in Hr.
  apply in_flat_map in Hr. destruct Hr as ([i uri] & He & Hr).
  destruct (loaded_rows_tagged s3 (i, uri) r Hr) as [Hi Hf].
  unfold path_entries, dropna_items in He.
  apply items_from_nth in He. destruct He as (_ & Hn & Hv).
  rewrite Nat.sub_0_r, nth_error_map in Hn.
  destruct (nth_error (rows final_df) i) as [m|] eqn:Hm; [|discriminate].
  simpl in Hn. injection Hn as Hcell.
  unfold loaded_rows in Hr. simpl in Hr.
  destruct (read_json s3 uri) as [d|] eqn:Hd; [|contradiction].
  exists i, m, uri, d. repeat split; auto.
  intros Hnil. rewrite Hnil in Hr. exact Hr.
Qed.

Lemma loaded_rows_traceable_witness :
  exists i m uri d,
    nth_error (rows Samples.two_images) i = Some m
    /\ cell m "standard_output_path" = uri /\ uri <> NaN
    /\ read_json Samples.second_missing uri = Some d /\ rows d <> []
    /\ cell (Samples.image_document "x" [JStr "a"; JStr "b"] [JStr "ab"]
             ++ [("source_index", JNum 0);
                 ("source_file", JStr "s3://out/0/standard_output.json")])
            "source_index" = JNum (Z.of_nat i)
    /\ cell (Samples.image_document "x" [JStr "a"; JStr "b"] [JStr "ab"]
             ++ [("source_index", JNum 0);
                 ("source_file", JStr "s3://out/0/standard_output.json")])
            "source_file" = uri.
Proof.
  apply (loaded_rows_traceable Samples.second_missing Samples.two_images
           (Samples.frame_of
              (read_custom_out_path_and_load Samples.second_missing
                 Samples.two_images "standard_output_path"))
           "standard_output_path"
           (Samples.image_document "x" [JStr "a"; JStr "b"] [JStr "ab"]
            ++ [("source_index", JNum 0);
                ("source_file", JStr "s3://out/0/standard_output.json")])).
  - reflexivity.
  - left. reflexivity.
Defined.

Lemma length_flat_map {A B : Type} (f : A -> list B) (l : list A) :
  List.length (flat_map f l) = list_sum (map (fun x => List.length (f x)) l).
Proof.
  induction l as [|x l IH]; simpl; [reflexivity|].
  now rewrite length_app, IH.
Qed.

(** X13: the loaded table has one row for every record of every document
    that could be fetched, and no other row: its length is the sum, over
    the entries present in the path column, of the number of records of
    the document, counting nothing for a fetch that failed. *)
Theorem loader_row_count (s3 : storage) (final_df t : DataFrame)
    (path_column : string) :
  read_custom_out_path_and_load s3 final_df path_column = Ok t ->
  List.length (rows t)
  = list_sum
      (map (fun e => match read_json s3 (snd e) with
                     | Some d => List.length (rows d)
                     | None => 0
                     end) (path_entries final_df path_column)).
Proof.
  intros Ht. pose proof (read_ok_column _ _ _ _ Ht) as Hc.
  destruct (read_rows s3 final_df path_column Hc) as (t' & Ht' & Hrows).
  rewrite Ht in Ht'. injection Ht' as <-.
  rewrite Hrows, length_flat_map. f_equal. apply map_ext. intros e.
  unfold loaded_rows. destruct (read_json s3 (snd e)); [|reflexivity].
  apply length_map.
Qed.

Lemma loader_row_count_witness :
  List.length (rows (Samples.frame_of
                       (read_custom_out_path_and_load Samples.second_missing
                          Samples.two_images "standard_output_path")))
  = list_sum
      (map (fun e => match read_json Samples.second_missing (snd e) with
                     | Some d => List.length (rows d)
                     | None => 0
                     end) (path_entries Samples.two_images "standard_output_path")).
Proof.
  apply (loader_row_count Samples.second_missing Samples.two_images
           (Samples.frame_of
              (read_custom_out_path_and_load Samples.second_missing
                 Samples.two_images "standard_output_path"))
           "standard_output_path").
  reflexivity.
Defined.

(** X14: the columns of the loaded table are [source_index], [source_file]
    and the columns of the documents that could be fetched, and these
    only; with no document fetched the table has no column at all. *)
Theorem loader_columns (s3 : storage) (final_df t : DataFrame)
    (path_column c : string) :
  read_custom_out_path_and_load s3 final_df path_column = Ok t ->
  (has_column t c = true <->
   exists e d,
     In e (path_entries final_df path_column)
     /\ read_json s3 (snd e) = Some d
     /\ (c = "source_index" \/ c = "source_file" \/ has_column d c = true)).
Proof.
  intros Ht. pose proof (read_ok_column _ _ _ _ Ht) as Hc.
  rewrite (read_is_concat s3 final_df path_column Hc) in Ht.
  injection Ht as <-. rewrite has_concat. split.
  - intros H. apply existsb_exists in H. destruct H as (df & Hdf & Hcol).
    apply in_load_each in Hdf. destruct Hdf as (e & d & He & Hr & ->).
    exists e, d. split; [exact He|]. split; [exact Hr|].
    unfold has_column in Hcol. simpl in Hcol.
    rewrite !has_add_column in Hcol.
    apply orb_true_iff in Hcol. destruct Hcol as [Hcol|Hcol];
      [|right; left; now apply String.eqb_eq].
    apply orb_true_iff in Hcol. destruct Hcol as [Hcol|Hcol];
      [right; right; exact Hcol|left; now apply String.eqb_eq].
  - intros (e & d & He & Hr & Hcases). apply existsb_exists.
    eexists. split; [apply in_load_each; exists e, d; repeat split; eauto|].
    unfold has_column. simpl. rewrite !has_add_column.
    destruct Hcases as [->|[->|Hd]].
    + rewrite String.eqb_refl. now rewrite orb_true_r.
    + rewrite String.eqb_refl. now rewrite orb_true_r.
    + unfold has_column in Hd. now rewrite Hd.
Qed.

Lemma loader_columns_witness :
  has_column (Samples.frame_of
                (read_custom_out_path_and_load Samples.second_missing
                   Samples.two_images "standard_output_path")) "image" = true
  <-> exists e d,
        In e (path_entries Samples.two_images "standard_output_path")
        /\ read_json Samples.second_missing (snd e) = Some d
        /\ ("image" = "source_index" \/ "image" = "source_file"
            \/ has_column d "image" = true).
Proof.
  apply (loader_columns Samples.second_missing Samples.two_images
           (Samples.frame_of
              (read_custom_out_path_and_load Samples.second_missing
                 Samples.two_images "standard_output_path"))
           "standard_output_path" "image").
  reflexivity.
Defined.

End LoaderMore.

(** ** The reconciler at its edges *)

Section ReconcilerMore.
Import Pandas Manager Shape.

Ltac bind_ok H x Hx :=
  match type of H with
  | bind ?m _ = Ok _ =>
      destruct m as [x|] eqn:Hx; [cbn [bind] in H|discriminate H]
  end.

Lemma wf_extract_modality (tag : json) (df df' : DataFrame) :
  well_formed df -> extract_modality tag df = Ok df' -> well_formed df'.
Proof.
  intros Hwf. unfold extract_modality.
  destruct (is_str tag "IMAGE"); [|destruct (is_str tag "VIDEO")]; intros H.
  - bind_ok H image Hi. bind_ok H n Hn. bind_ok H summary Hs.
    bind_ok H words Hw. bind_ok H lines Hl. injection H as <-.
    now repeat apply wf_setitem.
  - bind_ok H video Hv. bind_ok H n Hn. bind_ok H summary Hs.
    bind_ok H text Ht. injection H as <-.
    now repeat apply wf_setitem.
  - now injection H as <-.
Qed.

Lemma wf_load_custom (s3 : storage) (m c : DataFrame) :
  (forall uri d, s3 uri = Some d -> well_formed d) ->
  load_custom s3 m = Ok c -> well_formed c.
Proof.
  intros Hs3. unfold load_custom.
  destruct (has_column m "custom_output_path"); intros H.
  - bind_ok H c0 Hc0. bind_ok H mb Hmb. bind_ok H n Hn. bind_ok H name Hname.
    injection H as <-. apply wf_setitem. exact (wf_read s3 m c0 _ Hs3 Hc0).
  - injection H as <-. exact wf_empty.
Qed.

Lemma wf_cell_absent (df : DataFrame) (r : record) (c : string) :
  well_formed df -> In r (rows df) -> has_column df c = false -> cell r c = NaN.
Proof.
  intros Hwf Hr Hc. unfold cell. destruct (Dict.get r c) as [v|] eqn:E;
    [|reflexivity].
  assert (Hm : Dict.mem r c = true) by (unfold Dict.mem; now rewrite E).
  rewrite (Hwf r Hr c Hm) in Hc. discriminate.
Qed.

(** X15: the final table has one column set, the columns of the custom
    table and those of the standard table together; when the documents in
    storage are well formed, so is the final table, and a row has the
    missing-value marker in every column that only the other kind of row
    brings. *)
Theorem final_table_column_set (s3 : storage)
    (exploded_job_metadata : DataFrame) (t : tables) :
  (forall uri d, s3 uri = Some d -> well_formed d) ->
  main_reconcile s3 exploded_job_metadata = Ok t ->
  (forall c, has_column (final_result_bda_pd t) c
             = has_column (custom_extracted_details t) c
               || has_column (standard_extracted_details t) c)
  /\ well_formed (final_result_bda_pd t)
  /\ (forall r c, In r (rows (custom_extracted_details t)) ->
        has_column (custom_extracted_details t) c = false -> cell r c = NaN)
  /\ (forall r c, In r (rows (standard_extracted_details t)) ->
        has_column (standard_extracted_details t) c = false -> cell r c = NaN).
Proof.
  intros Hs3 H. unfold main_reconcile in H.
  bind_ok H sm Hsm. bind_ok H tag Htag. bind_ok H custom Hcu.
  bind_ok H loaded Hlo. bind_ok H standard Hst. injection H as <-.
  cbn [custom_extracted_details standard_extracted_details final_result_bda_pd].
  pose proof (wf_load_custom s3 _ _ Hs3 Hcu) as Hwc.
  pose proof (wf_extract_modality _ _ _ (wf_read s3 _ _ _ Hs3 Hlo) Hst) as Hws.
  split; [|split; [|split]].
  - intros c. rewrite has_concat. simpl. now rewrite orb_false_r.
  - apply wf_concat. intros df [<-|[<-|[]]]; assumption.
  - intros r c Hr Hc. exact (wf_cell_absent _ r c Hwc Hr Hc).
  - intros r c Hr Hc. exact (wf_cell_absent _ r c Hws Hr Hc).
Qed.

Lemma mem_keys (r : record) (c : string) :
  Dict.mem r c = true -> existsb (String.eqb c) (Dict.keys r) = true.
Proof.
  unfold Dict.mem, Dict.keys.
  induction r as [|[k v] r IH]; simpl; [discriminate|].
  rewrite (String.eqb_sym c k). destruct (String.eqb k c); [reflexivity|].
  exact IH.
Qed.

Lemma sample_documents_well_formed (objects : list (string * record)) :
  forall uri d, Samples.bucket objects uri = Some d -> well_formed d.
Proof.
  induction objects as [|[k doc] objects IH]; intros uri d; simpl;
    [discriminate|].
  destruct (String.eqb k uri); [|apply IH].
  intros H. injection H as <-. intros r [<-|[]] c Hc.
  unfold has_column, from_records. simpl. rewrite has_union_columns. simpl.
  now apply mem_keys.
Qed.

Lemma final_table_column_set_witness :
  (forall c,
     has_column (final_result_bda_pd
                   (Samples.tables_of
                      (main_reconcile Samples.a_and_b_bucket Samples.a_and_b))) c
     = has_column (custom_extracted_details
                     (Samples.tables_of
                        (main_reconcile Samples.a_and_b_bucket Samples.a_and_b))) c
       || has_column (standard_extracted_details
                        (Samples.tables_of
                           (main_reconcile Samples.a_and_b_bucket Samples.a_and_b))) c)
  /\ well_formed (final_result_bda_pd
                    (Samples.tables_of
                       (main_reconcile Samples.a_and_b_bucket Samples.a_and_b))).
Proof.
  destruct (final_table_column_set Samples.a_and_b_bucket Samples.a_and_b
              (Samples.tables_of
                 (main_reconcile Samples.a_and_b_bucket Samples.a_and_b))
              (sample_documents_well_formed _) eq_refl) as (H1 & H2 & _).
  split; [exact H1|exact H2].
Defined.

Lemma modality_lookup (m : DataFrame) (first : record) (rest : list record) :
  has_column m "semantic_modality" = true ->
  rows m = first :: rest ->
  (semantic_modality <- getitem m "semantic_modality" ;; loc0 semantic_modality)
  = Ok (cell first "semantic_modality").
Proof.
  intros Hc Hr. rewrite (getitem_present _ _ Hc), Hr. reflexivity.
Qed.

Lemma read_all_failing (s3 : storage) (m : DataFrame) (c : string) :
  has_column m c = true ->
  (forall e, In e (path_entries m c) -> read_json s3 (snd e) = None) ->
  read_custom_out_path_and_load s3 m c = Ok empty.
Proof.
  intros Hc Hfail. rewrite (read_is_concat s3 m c Hc).
  now rewrite (load_each_all_fail s3 _ Hfail).
Qed.

(** X16: when the manifest has a custom path column but no custom document
    can be loaded (no entry present, or every fetch failing), [main]
    raises [KeyError] on the column [matched_blueprint] of the empty custom
    table, whatever the standard documents are. *)
Theorem no_custom_document_raises (s3 : storage)
    (exploded_job_metadata : DataFrame) (first : record) (rest : list record) :
  has_column exploded_job_metadata "semantic_modality" = true ->
  rows exploded_job_metadata = first :: rest ->
  has_column exploded_job_metadata "custom_output_path" = true ->
  (forall e, In e (path_entries exploded_job_metadata "custom_output_path") ->
     read_json s3 (snd e) = None) ->
  main_reconcile s3 exploded_job_metadata = Raise (KeyError "matched_blueprint").
Proof.
  intros Hsm Hr Hc Hfail. unfold main_reconcile.
  rewrite (getitem_present _ _ Hsm), Hr. cbn [bind map loc0].
  unfold load_custom. rewrite Hc.
  now rewrite (read_all_failing s3 _ _ Hc Hfail).
Qed.

Lemma no_custom_document_raises_witness :
  main_reconcile Samples.second_missing
    (Samples.manifest
       [Samples.segment "IMAGE" NaN "s3://out/0/standard_output.json"])
  = Raise (KeyError "matched_blueprint").
Proof.
  apply (no_custom_document_raises Samples.second_missing
           (Samples.manifest
              [Samples.segment "IMAGE" NaN "s3://out/0/standard_output.json"])
           (Samples.segment "IMAGE" NaN "s3://out/0/standard_output.json") []).
  - reflexivity.
  - reflexivity.
  - reflexivity.
  - intros e [].
Defined.

(** X17: when no standard document can be loaded, the outcome depends on
    the modality of the first row: for IMAGE and for VIDEO [main] raises
    [KeyError] on the column of that name in the empty standard table; for
    any other tag it goes through and the final table is the custom table
    alone. *)
Theorem no_standard_document (s3 : storage)
    (exploded_job_metadata custom : DataFrame)
    (first : record) (rest : list record) :
  has_column exploded_job_metadata "semantic_modality" = true ->
  rows exploded_job_metadata = first :: rest ->
  load_custom s3 exploded_job_metadata = Ok custom ->
  has_column exploded_job_metadata "standard_output_path" = true ->
  (forall e, In e (path_entries exploded_job_metadata "standard_output_path") ->
     read_json s3 (snd e) = None) ->
  (cell first "semantic_modality" = JStr "IMAGE" ->
   main_reconcile s3 exploded_job_metadata = Raise (KeyError "image"))
  /\ (cell first "semantic_modality" = JStr "VIDEO" ->
      main_reconcile s3 exploded_job_metadata = Raise (KeyError "video"))
  /\ (cell first "semantic_modality" <> JStr "IMAGE" ->
      cell first "semantic_modality" <> JStr "VIDEO" ->
      exists t, main_reconcile s3 exploded_job_metadata = Ok t
                /\ standard_extracted_details t = empty
                /\ rows (final_result_bda_pd t) = rows custom
                /\ forall c, has_column (final_result_bda_pd t) c
                             = has_column custom c).
Proof.
  intros Hsm Hr Hcu Hc Hfail.
  assert (Hmain : main_reconcile s3 exploded_job_metadata
                  = (standard <- extract_modality
                                   (cell first "semantic_modality") empty ;;
                     Ok (Tables custom standard (concat [custom; standard])))).
  { unfold main_reconcile.
    rewrite (getitem_present _ _ Hsm), Hr. cbn [bind map loc0].
    rewrite Hcu. cbn [bind].
    now rewrite (read_all_failing s3 _ _ Hc Hfail). }
  rewrite Hmain. split; [|split].
  - intros ->. reflexivity.
  - intros ->. reflexivity.
  - intros Hi Hv. unfold extract_modality, is_str.
    rewrite (eq_str_false _ "IMAGE") by congruence.
    rewrite (eq_str_false _ "VIDEO") by congruence.
    eexists. split; [reflexivity|]. split; [reflexivity|]. split.
    + simpl. now rewrite !app_nil_r.
    + intros c. cbn [final_result_bda_pd]. rewrite has_concat. simpl.
      now rewrite !orb_false_r.
Qed.

Lemma no_standard_document_witness :
  main_reconcile (fun _ => None)
    (Samples.standard_only [("IMAGE", "s3://out/0/standard_output.json")])
  = Raise (KeyError "image").
Proof.
  destruct (no_standard_document (fun _ => None)
              (Samples.standard_only
                 [("IMAGE", "s3://out/0/standard_output.json")])
              empty
              [("semantic_modality", JStr "IMAGE");
               ("standard_output_path", JStr "s3://out/0/standard_output.json")]
              [] eq_refl eq_refl eq_refl eq_refl
              (fun e _ => match snd e as v return read_json (fun _ => None) v = None
                          with JStr _ => eq_refl | _ => eq_refl end))
    as (H & _).
  exact (H eq_refl).
Defined.

(** X18: the column [blueprintName] of the custom table holds, row by row,
    the [name] found in that row's [matched_blueprint]; the column
    [matched_blueprint] itself and the origin of the row stay as loaded. *)
Theorem blueprint_name_column (s3 : storage)
    (exploded_job_metadata custom : DataFrame) (r : record) :
  load_custom s3 exploded_job_metadata = Ok custom ->
  In r (rows custom) ->
  has_column custom "blueprintName" = true
  /\ cell r "blueprintName"
     = cell (_simple_json_normalize (cell r "matched_blueprint")) "name"
  /\ exists r0 loaded,
       read_custom_out_path_and_load s3 exploded_job_metadata
         "custom_output_path" = Ok loaded
       /\ In r0 (rows loaded)
       /\ cell r "matched_blueprint" = cell r0 "matched_blueprint"
       /\ source r = source r0.
Proof.
  unfold load_custom.
  destruct (has_column exploded_job_metadata "custom_output_path");
    [|intros H; injection H as <-; intros []].
  intros H Hr. bind_ok H c0 Hc0. bind_ok H mb Hmb. bind_ok H n Hn.
  bind_ok H name Hname. injection H as <-.
  rewrite (normalized_column _ _ _ _ _ _ Hmb Hn Hname) in Hr |- *.
  split; [unfold has_column; cbn [setitem columns]; rewrite has_add_column;
          now rewrite String.eqb_refl, orb_true_r|].
  cbn [setitem rows] in Hr. rewrite assign_same in Hr.
  apply in_map_iff in Hr. destruct Hr as (r0 & <- & Hr0).
  split; [|exists r0, c0; repeat split; auto].
  - rewrite cell_set_same. now rewrite cell_set_other by discriminate.
  - now rewrite cell_set_other by discriminate.
  - apply source_set; discriminate.
Qed.

Lemma blueprint_name_column_witness :
  has_column (Samples.frame_of (load_custom Samples.a_and_b_bucket Samples.a_and_b))
             "blueprintName" = true
  /\ cell [("matched_blueprint",
            JDict [("arn", JStr "arn:aws:bedrock:blueprint/ad");
                   ("name", JStr "Advertisement")]);
           ("inference_result", JDict [("product", JStr "burger")]);
           ("source_index", JNum 0);
           ("source_file", JStr "s3://out/0/custom_output.json");
           ("blueprintName", JStr "Advertisement")] "blueprintName"
     = JStr "Advertisement".
Proof.
  destruct (blueprint_name_column Samples.a_and_b_bucket Samples.a_and_b
              (Samples.frame_of (load_custom Samples.a_and_b_bucket Samples.a_and_b))
              [("matched_blueprint",
                JDict [("arn", JStr "arn:aws:bedrock:blueprint/ad");
                       ("name", JStr "Advertisement")]);
               ("inference_result", JDict [("product", JStr "burger")]);
               ("source_index", JNum 0);
               ("source_file", JStr "s3://out/0/custom_output.json");
               ("blueprintName", JStr "Advertisement")]
              eq_refl (or_introl eq_refl)) as (H1 & H2 & _).
  split; [exact H1|exact H2].
Defined.

(** X19: the modality branch adds to the standard table and takes nothing
    away: the rows stay as many and in order, every column stays a column,
    and a row differs from the loaded one only in the columns [summary],
    [extracted_text_words], [extracted_text_lines] and
    [extracted_transcript], a [summary] the document brought itself being
    overwritten. *)
Theorem modality_branch_only_adds (tag : json) (df df' : DataFrame) :
  extract_modality tag df = Ok df' ->
  List.length (rows df') = List.length (rows df)
  /\ (forall c, has_column df c = true -> has_column df' c = true)
  /\ (forall i r, nth_error (rows df) i = Some r ->
        exists r', nth_error (rows df') i = Some r'
                   /\ forall c, ~ written c -> cell r' c = cell r c).
Proof.
  intros H. pose proof (extract_modality_rows _ _ _ H) as Hrows.
  split; [rewrite Hrows; apply length_map|]. split.
  - intros c Hc. unfold extract_modality in H.
    destruct (is_str tag "IMAGE"); [|destruct (is_str tag "VIDEO")].
    + bind_ok H image Hi. bind_ok H n Hn. bind_ok H summary Hs.
      bind_ok H words Hw. bind_ok H lines Hl. injection H as <-.
      unfold has_column in *. cbn [setitem columns].
      rewrite !has_add_column, Hc. reflexivity.
    + bind_ok H video Hv. bind_ok H n Hn. bind_ok H summary Hs.
      bind_ok H text Ht. injection H as <-.
      unfold has_column in *. cbn [setitem columns].
      rewrite !has_add_column, Hc. reflexivity.
    + now injection H as <-.
  - intros i r Hr. exists (enrich_record tag r).
    split; [rewrite Hrows; now apply map_nth_error|].
    intros c Hc. unfold written in Hc. unfold enrich_record.
    destruct (is_str tag "IMAGE"); [|destruct (is_str tag "VIDEO")];
      [| |reflexivity];
      rewrite !cell_set_other; auto; intros <-; apply Hc; auto.
Qed.

Lemma modality_branch_only_adds_witness :
  List.length
    (rows (Samples.frame_of
             (extract_modality (JStr "IMAGE")
                (from_records [Samples.image_document "x" [] []]))))
  = List.length (rows (from_records [Samples.image_document "x" [] []])).
Proof.
  destruct (modality_branch_only_adds (JStr "IMAGE")
              (from_records [Samples.image_document "x" [] []])
              (Samples.frame_of
                 (extract_modality (JStr "IMAGE")
                    (from_records [Samples.image_document "x" [] []])))
              eq_refl) as (H & _).
  exact H.
Defined.

End ReconcilerMore.

(** ** Flattening and expansion *)

Section FlatteningFacts.
Import Pandas Manager Shape.

Ltac bind_ok H x Hx :=
  match type of H with
  | bind ?m _ = Ok _ =>
      destruct m as [x|] eqn:Hx; [cbn [bind] in H|discriminate H]
  end.

(** Induction on values, through the lists and dicts they nest. *)
Lemma json_nested_ind (P : json -> Prop) :
  P NaN -> (forall b, P (JBool b)) -> (forall z, P (JNum z)) ->
  (forall s, P (JStr s)) ->
  (forall l, Forall P l -> P (JList l)) ->
  (forall d, Forall (fun kv => P (snd kv)) d -> P (JDict d)) ->
  forall v, P v.
Proof.
  intros HN HB HZ HS HL HD. fix IH 1. intros [|b|z|s|l|d].
  - exact HN.
  - apply HB.
  - apply HZ.
  - apply HS.
  - apply HL. induction l as [|x l IHl]; constructor; [apply IH|exact IHl].
  - apply HD. induction d as [|[k x] d IHd]; constructor;
      [apply IH|exact IHd].
Qed.

Lemma flat_set (acc : record) (k : string) (v : json) :
  flat acc -> is_dict v = false -> flat (Dict.set acc k v).
Proof.
  intros Hacc Hv. induction acc as [|[k' v'] acc IH]; simpl.
  - now repeat constructor.
  - inversion Hacc as [|? ? Hv' Hrest]; subst.
    destruct (String.eqb k' k); constructor; simpl; auto.
    apply IH. exact Hrest.
Qed.

Lemma normalise_flat (data : json) :
  forall key_string acc, flat acc -> flat (_normalise_json data key_string acc).
Proof.
  induction data as [|b|z|s|l _|d IHd] using json_nested_ind;
    intros ks acc Hacc; try (now apply flat_set).
  cbn [_normalise_json]. revert acc Hacc.
  induction d as [|[k v] d IH]; intros acc Hacc; [exact Hacc|].
  inversion IHd as [|? ? Hv Hd]; subst. apply (IH Hd). apply Hv. exact Hacc.
Qed.

Lemma merge_flat (b a : record) : flat a -> flat b -> flat (merge a b).
Proof.
  unfold merge. revert a.
  induction b as [|[k v] b IH]; intros a Ha Hb; [exact Ha|].
  inversion Hb as [|? ? Hv Hrest]; subst. simpl.
  apply IH; [now apply flat_set|exact Hrest].
Qed.

Lemma simple_normalize_flat (v : json) : flat (_simple_json_normalize v).
Proof.
  destruct v as [| | | | |d]; try constructor.
  unfold _simple_json_normalize, _normalise_json_ordered. apply merge_flat.
  - apply Forall_forall. intros kv Hin. apply filter_In in Hin.
    destruct Hin as [_ Hnd]. now apply negb_true_iff in Hnd.
  - apply normalise_flat. constructor.
Qed.

Lemma flat_get (r : record) (c : string) : flat r -> is_dict (cell r c) = false.
Proof.
  intros Hr. unfold cell. induction r as [|[k v] r IH]; simpl; [reflexivity|].
  inversion Hr as [|? ? Hv Hrest]; subst.
  destruct (String.eqb k c); [exact Hv|now apply IH].
Qed.

(** X20: flattening is complete: no cell of a frame that [json_normalize]
    returns is a dict, however deep the dicts of the series nest. *)
Theorem json_normalize_leaves_no_dict (s : Series) (d : DataFrame)
    (r : record) (c : string) :
  json_normalize s = Ok d ->
  In r (rows d) ->
  is_dict (cell r c) = false.
Proof.
  intros H Hr. apply json_normalize_ok in H. rewrite H in Hr.
  apply in_map_iff in Hr. destruct Hr as (v & <- & _).
  apply flat_get, simple_normalize_flat.
Qed.

Lemma json_normalize_leaves_no_dict_witness :
  is_dict (cell [("summary", JStr "a talk");
                 ("transcript.representation.text", JStr "hello")]
                "transcript.representation.text") = false.
Proof.
  apply (json_normalize_leaves_no_dict
           [JDict [("summary", JStr "a talk");
                   ("transcript",
                    JDict [("representation", JDict [("text", JStr "hello")])])]]
           (Samples.frame_of
              (json_normalize
                 [JDict [("summary", JStr "a talk");
                         ("transcript",
                          JDict [("representation",
                                  JDict [("text", JStr "hello")])])]]))).
  - reflexivity.
  - left. reflexivity.
Defined.

Lemma filter_all {A : Type} (f : A -> bool) (l : list A) :
  Forall (fun x => f x = true) l -> filter f l = l.
Proof.
  induction 1 as [|x l Hx _ IH]; simpl; [reflexivity|]. now rewrite Hx, IH.
Qed.

Lemma filter_nothing {A : Type} (f : A -> bool) (l : list A) :
  Forall (fun x => f x = false) l -> filter f l = [].
Proof.
  induction 1 as [|x l Hx _ IH]; simpl; [reflexivity|]. now rewrite Hx.
Qed.

Lemma flat_unchanged (d : record) :
  flat d -> _simple_json_normalize (JDict d) = d.
Proof.
  intros Hd. unfold _simple_json_normalize, _normalise_json_ordered.
  rewrite (filter_nothing (fun kv => is_dict (snd kv)) d Hd).
  rewrite filter_all; [reflexivity|].
  apply Forall_forall. intros kv Hin. unfold flat in Hd.
  rewrite Forall_forall in Hd. now rewrite (Hd kv Hin).
Qed.

(** X21: a record without nested dicts passes through the flattening as it
    is, keys, values and order; so flattening what was flattened changes
    nothing. *)
Theorem flattening_idempotent (v : json) (d : record) :
  (flat d -> _simple_json_normalize (JDict d) = d)
  /\ _simple_json_normalize (JDict (_simple_json_normalize v))
     = _simple_json_normalize v.
Proof.
  split; [apply flat_unchanged|].
  apply flat_unchanged, simple_normalize_flat.
Qed.

Lemma concat_axis1_columns (a b t : DataFrame) :
  concat_axis1 a b = Ok t -> columns t = columns a ++ columns b.
Proof.
  unfold concat_axis1. destruct (disjoint (columns a) (columns b));
    [|discriminate].
  intros H. now injection H as <-.
Qed.

Lemma explode_cell_not_nil (v : json) : 1 <= pieces v.
Proof.
  unfold pieces. destruct v as [| | | |[|x l]|[|kv d]]; simpl; lia.
Qed.

Lemma list_sum_lower {A : Type} (f : A -> nat) (l : list A) :
  (forall x, 1 <= f x) -> List.length l <= list_sum (map f l).
Proof.
  intros Hf. induction l as [|x l IH]; simpl; [lia|].
  specialize (Hf x). lia.
Qed.

(** X22: loading a manifest never loses an asset: every row of the manifest
    read gives at least one row of the loaded manifest, and the loaded
    manifest has as many rows as the segment cells of the assets have
    pieces, an empty or missing segment list counting for one. *)
Theorem expansion_never_drops (df_invocation_metadata t : DataFrame) :
  retrieve_inference_results df_invocation_metadata = Ok t ->
  List.length (rows df_invocation_metadata) <= List.length (rows t)
  /\ List.length (rows t)
     = list_sum (map (fun r => pieces (cell (flattened r) "segment_metadata"))
                     (rows df_invocation_metadata)).
Proof.
  intros H. apply retrieve_rows in H.
  assert (Hlen : List.length (rows t)
                 = list_sum (map (fun r => pieces (cell (flattened r)
                                                      "segment_metadata"))
                                 (rows df_invocation_metadata))).
  { rewrite H, length_flat_map. f_equal. apply map_ext. intros r.
    unfold expand_row, pieces. apply length_map. }
  split; [|exact Hlen]. rewrite Hlen. apply list_sum_lower.
  intros r. apply explode_cell_not_nil.
Qed.

Lemma expansion_never_drops_witness :
  List.length (rows Samples.three_and_none)
  <= List.length (rows (Samples.frame_of
                          (retrieve_inference_results Samples.three_and_none)))
  /\ List.length (rows (Samples.frame_of
                          (retrieve_inference_results Samples.three_and_none)))
     = list_sum (map (fun r => pieces (cell (flattened r) "segment_metadata"))
                     (rows Samples.three_and_none)).
Proof.
  apply (expansion_never_drops Samples.three_and_none
           (Samples.frame_of (retrieve_inference_results Samples.three_and_none))).
  reflexivity.
Defined.

Lemma keys_mem (r : record) (c : string) :
  existsb (String.eqb c) (Dict.keys r) = true -> Dict.mem r c = true.
Proof.
  unfold Dict.mem, Dict.keys.
  induction r as [|[k v] r IH]; simpl; [discriminate|].
  rewrite (String.eqb_sym c k). destruct (String.eqb k c); [reflexivity|].
  exact IH.
Qed.

(** X23: what a manifest must have to load: [output_metadata] is one of
    its columns, and [segment_metadata] is a column of it or a key of the
    flattened output metadata of one of its rows; and every column of the
    manifest read is a column of the loaded manifest. *)
Theorem loadable_manifest (df_invocation_metadata t : DataFrame) :
  retrieve_inference_results df_invocation_metadata = Ok t ->
  has_column df_invocation_metadata "output_metadata" = true
  /\ (has_column df_invocation_metadata "segment_metadata" = true
      \/ exists r, In r (rows df_invocation_metadata)
           /\ Dict.mem (_simple_json_normalize (cell r "output_metadata"))
                       "segment_metadata" = true)
  /\ has_column t "segment_metadata" = true
  /\ (forall c, has_column df_invocation_metadata c = true ->
                has_column t c = true).
Proof.
  unfold retrieve_inference_results. intros H.
  bind_ok H om Hom. bind_ok H n1 Hn1. bind_ok H df1 Hdf1.
  bind_ok H exploded Hex. bind_ok H sm Hsm. bind_ok H n2 Hn2.
  apply getitem_ok in Hom. destruct Hom as [Hcol ->].
  pose proof (concat_axis1_columns _ _ _ Hdf1) as Hc1.
  pose proof (concat_axis1_columns _ _ _ H) as Hc2.
  assert (Hexc : columns exploded = columns df1).
  { unfold explode in Hex. destruct (negb (unique (columns df1)));
      [discriminate|].
    destruct (negb (has_column df1 "segment_metadata")); [discriminate|].
    now injection Hex as <-. }
  apply explode_ok in Hex. destruct Hex as [Hseg _].
  split; [exact Hcol|]. split; [|split].
  - unfold has_column in Hseg. rewrite Hexc, Hc1, existsb_app in Hseg.
    apply orb_true_iff in Hseg. destruct Hseg as [Hseg|Hseg]; [now left|].
    right. unfold json_normalize in Hn1.
    destruct (existsb is_list _); [discriminate|]. injection Hn1 as <-.
    unfold from_records in Hseg. cbn [columns] in Hseg.
    rewrite has_fold_union in Hseg. simpl in Hseg.
    apply existsb_exists in Hseg. destruct Hseg as (x & Hx & Hk).
    rewrite map_map in Hx. apply in_map_iff in Hx.
    destruct Hx as (r & <- & Hr). exists r. split; [exact Hr|].
    now apply keys_mem.
  - unfold has_column in *. rewrite Hc2, existsb_app, Hseg. reflexivity.
  - intros c Hc. unfold has_column in *.
    rewrite Hc2, Hexc, Hc1, !existsb_app, Hc. reflexivity.
Qed.

Lemma loadable_manifest_witness :
  has_column Samples.three_and_one "output_metadata" = true
  /\ has_column (Samples.frame_of
                   (retrieve_inference_results Samples.three_and_one))
                "segment_metadata" = true.
Proof.
  destruct (loadable_manifest Samples.three_and_one
              (Samples.frame_of
                 (retrieve_inference_results Samples.three_and_one))
              eq_refl) as (H1 & _ & H3 & _).
  split; [exact H1|exact H3].
Defined.

End FlatteningFacts.

(** ** Provisioning when the service fails *)

Section FailureFacts.
Import Provisioning Failures.

(** Where the service answers, the two models of [create_bda_project]
    agree: same service state, same calls, same result or [ValueError]. *)
Lemma answering_agrees (S : Type) (client : bda_client S) (self : manager)
    (name d st : string) (s : S) :
  fst (Failures.create_bda_project (answering client) self name d st s)
  = fst (Provisioning.create_bda_project client self name d st s)
  /\ match snd (Provisioning.create_bda_project client self name d st s) with
     | Ok v =>
         snd (Failures.create_bda_project (answering client) self name d st s)
         = Returns v
     | Raise (ValueError msg) =>
         snd (Failures.create_bda_project (answering client) self name d st s)
         = Raises (ValueErr msg)
     | Raise _ => False
     end.
Proof.
  unfold Failures.create_bda_project, Provisioning.create_bda_project,
    project_exists_call. simpl.
  destruct (project_exists_cases (list_data_automation_projects client s) name)
    as [(q & Hq & _)|[Hf _]].
  - rewrite Hq, (found_is_truthy _ _ _ Hq). now split.
  - rewrite Hf. simpl.
    destruct (negb (opt_truthy (advertisement_arn self))); [now split|].
    destruct (create_data_automation_project client s _). now split.
Qed.

(** X6: when and what [create_bda_project] raises.  With a project of the
    name on the pages the paginator yields, it raises nothing, even if a
    later listing call would fail.  Without one, it raises the
    [ClientError] of the listing if the listing fails; otherwise its own
    [ValueError] if the manager has no ARN; otherwise the [ClientError] of
    the create call if that fails.  Before the create call nothing has
    changed and no create call was made. *)
Theorem create_raises_characterised
    (S : Type) (client : fallible_client S) (self : manager)
    (name d st : string) (s : S) (pages : list page) (err : option string) :
  paginate client s = (pages, err) ->
  let run := Failures.create_bda_project client self name d st s in
  let req := CreateRequest name d st
               (match advertisement_arn self with
                | Some a => a | None => NaN end) "LIVE" in
  (forall p, listed pages name p ->
     exists q, run = (s, [ListProjects], Returns (PyDict q))
               /\ listed pages name q)
  /\ ((forall p, ~ listed pages name p) ->
      match err with
      | Some code => run = (s, [ListProjects], Raises (ClientError code))
      | None =>
          if opt_truthy (advertisement_arn self) then
            run = (fst (create_project client s req),
                   [ListProjects; CreateProject req],
                   match snd (create_project client s req) with
                   | inl response => Returns (PyDict response)
                   | inr code => Raises (ClientError code)
                   end)
          else
            run = (s, [ListProjects],
                   Raises (ValueErr "Advertisement blueprint ARN not found."))
      end)
  /\ (forall e, snd run = Raises e ->
        (forall p, ~ listed pages name p)
        /\ (creates (snd (fst run)) = 0 -> fst (fst run) = s)).
Proof.
  intros Hpg run req. subst run.
  unfold Failures.create_bda_project, project_exists_call. rewrite Hpg.
  destruct (project_exists_cases pages name) as [(q & Hq & Hl)|[Hf Hno]].
  - rewrite Hq, (found_is_truthy _ _ _ Hq). split; [|split].
    + intros _ _. now exists q.
    + intros Hnone. now destruct (Hnone q).
    + intros e He. discriminate.
  - rewrite Hf. split; [intros p Hp; now destruct (Hno p)|].
    destruct err as [code|]; simpl.
    + split; [reflexivity|]. intros e _. now split.
    + destruct (opt_truthy (advertisement_arn self)); simpl.
      * fold req. destruct (create_project client s req) as [s' answer].
        split; [reflexivity|]. intros e _. split; [exact Hno|].
        unfold creates. simpl. discriminate.
      * split; [reflexivity|]. intros e _. now split.
Qed.

Lemma create_raises_characterised_witness :
  Failures.create_bda_project throttled (Manager (Some (JStr "arn:ad")))
    "P" "d" "LIVE" tt
  = (tt, [ListProjects], Raises (ClientError "ThrottlingException")).
Proof.
  destruct (create_raises_characterised unit throttled
              (Manager (Some (JStr "arn:ad"))) "P" "d" "LIVE" tt
              [Page (Some [])] (Some "ThrottlingException") eq_refl)
    as (_ & H & _).
  apply H. intros p (pg & l & [<-|[]] & Hl & Hin & _).
  simpl in Hl. injection Hl as <-. destruct Hin.
Defined.

End FailureFacts.

(** ** One failed fetch and the final table *)

Section FailedFetchFacts.
Import Pandas Manager Kinds.

Ltac bind_ok H x Hx :=
  match type of H with
  | bind ?m _ = Ok _ =>
      destruct m as [x|] eqn:Hx; [cbn [bind] in H|discriminate H]
  end.





End FailedFetchFacts.
